(** * Opportunity-Agent: the job harvesting engine

    A shallow embedding of the two scrapers of the repository,
    [src/stream.py] (the Zscaler board: scroll, paginate, enrich) and
    [src/app.py] (the Microsoft careers search), and the properties of
    the specification checked against them.

    The browser is the only collaborator of the code.  Each module below
    fixes, as plain data, what the browser answers to the calls the code
    makes (an element lookup that succeeds or raises, an attribute that is
    present or [None], a wait that succeeds or times out), and the Python
    functions become total functions over these answers.  Exceptions are
    values of [res]; a [try]/[except] is a [match] on them. *)

From Stdlib Require Import ZArith Ascii String.
From stdpp Require Import base list strings.

Local Open Scope Z_scope.
Local Open Scope nat_scope.

(** ** Exceptions *)

(** The exception classes the two files distinguish in their handlers, and
    [WebDriverException] for every other failure of a browser call. *)
Inductive exn :=
| TimeoutException
| NoSuchElementException
| StaleElementReferenceException
| TypeError
| KeyError
| WebDriverException.

(** The outcome of a Python expression: a value, or a raised exception. *)
Inductive res (A : Type) :=
| Ok (a : A)
| Raise (e : exn).
Arguments Ok {A} a.
Arguments Raise {A} e.

Definition is_ok {A} (r : res A) : bool :=
  match r with Ok _ => true | Raise _ => false end.

(** ** Python strings

    Text is modelled by ASCII strings: [isspace] and [lower] are Python's
    on code points below 128, which is where every marker, sentinel and
    selector of the two files lives. *)
Module PyStr.

(** [str.isspace] on one character: TAB..CR, FS..US and the space. *)
Definition isspace (c : ascii) : bool :=
  let n := nat_of_ascii c in
  ((9 <=? n) && (n <=? 13)) || ((28 <=? n) && (n <=? 32)).

Fixpoint lstrip (s : string) : string :=
  match s with
  | EmptyString => EmptyString
  | String c s' => if isspace c then lstrip s' else s
  end.

Fixpoint rstrip (s : string) : string :=
  match s with
  | EmptyString => EmptyString
  | String c s' =>
      match rstrip s' with
      | EmptyString => if isspace c then EmptyString else String c EmptyString
      | r => String c r
      end
  end.

(** [s.strip()] *)
Definition strip (s : string) : string := lstrip (rstrip s).

Definition lower_char (c : ascii) : ascii :=
  let n := nat_of_ascii c in
  if (65 <=? n) && (n <=? 90) then ascii_of_nat (n + 32) else c.

(** [s.lower()] *)
Fixpoint lower (s : string) : string :=
  match s with
  | EmptyString => EmptyString
  | String c s' => String (lower_char c) (lower s')
  end.

(** [sub in s] *)
Fixpoint contains (sub s : string) : bool :=
  String.prefix sub s ||
  match s with
  | EmptyString => false
  | String _ s' => contains sub s'
  end.

(** The truth value of a string in a condition: non-empty. *)
Definition truthy (s : string) : bool := negb (String.eqb s EmptyString).

(** The truth value of [None] or a string. *)
Definition opt_truthy (o : option string) : bool :=
  match o with
  | Some s => truthy s
  | None => false
  end.

(** [sep.join(l)] *)
Definition join (sep : string) (l : list string) : string :=
  String.concat sep l.

End PyStr.

(** ** The scroll loop of [scroll_to_load_all] (stream.py, lines 33-89) *)
Module Scroll.

(** What one pass of the loop reads from the page: [scrollHeight] and the
    number of elements of class [opening]. *)
Record reading := Reading { height : Z; job_count : nat }.

(** The local variables of the function. *)
Record state := State {
  scrolls : nat;
  last_height : Z;
  last_job_count : nat;
  consecutive_no_change : nat
}.

(** The values before the loop: [last_height] is read from the page,
    [last_job_count] starts at 0. *)
Definition initial (h0 : Z) : state :=
  {| scrolls := 0; last_height := h0; last_job_count := 0;
     consecutive_no_change := 0 |}.

(** Lines 73-84: the comparison with the previous readings.  The second
    component tells that the [break] of line 78 was taken, in which case
    lines 82-84 are not run. *)
Definition compare_and_count (r : reading) (st : state) : state * bool :=
  if (height r =? last_height st)%Z && (job_count r =? last_job_count st) then
    let c := S (consecutive_no_change st) in
    if 3 <=? c then
      ({| scrolls := scrolls st; last_height := last_height st;
          last_job_count := last_job_count st;
          consecutive_no_change := c |}, true)
    else
      ({| scrolls := S (scrolls st); last_height := height r;
          last_job_count := job_count r;
          consecutive_no_change := c |}, false)
  else
    ({| scrolls := S (scrolls st); last_height := height r;
        last_job_count := job_count r;
        consecutive_no_change := 0 |}, false).

(** [while scrolls < max_scrolls].  The page answers the read of the pass
    that starts with [scrolls = i] by [page i].  [fuel] bounds the passes;
    [max_scrolls] of it is enough, see [scroll_to_load_all]. *)
Fixpoint scroll_loop (fuel : nat) (page : nat -> reading) (max_scrolls : nat)
    (st : state) : state * bool :=
  match fuel with
  | 0 => (st, false)
  | S fuel' =>
      if scrolls st <? max_scrolls then
        let (st', stopped) := compare_and_count (page (scrolls st)) st in
        if stopped then (st', true)
        else scroll_loop fuel' page max_scrolls st'
      else (st, false)
  end.

(** The function: the final variables, and whether the loop was left by
    the [break]. *)
Definition scroll_to_load_all (page : nat -> reading) (h0 : Z)
    (max_scrolls : nat) : state * bool :=
  scroll_loop max_scrolls page max_scrolls (initial h0).

(** The number of reads the loop made: one per completed pass, and the
    one of the pass that broke out. *)
Definition reads (out : state * bool) : nat :=
  scrolls (fst out) + (if snd out then 1 else 0).

(** The readings before read [i + 1]: the initial ones for the first
    pass, then those of read [i]. Reads are numbered from 1. *)
Definition previous (page : nat -> reading) (h0 : Z) (i : nat) : reading :=
  match i with
  | 0 => {| height := h0; job_count := 0 |}
  | S j => page j
  end.

Definition same_reading (a b : reading) : bool :=
  (height a =? height b)%Z && (job_count a =? job_count b).

(** The stability rule as the specification words it: the stall count
    after [i] reads goes up by one when read [i] repeats the previous
    readings, and back to 0 on any change. *)
Fixpoint stall_count (page : nat -> reading) (h0 : Z) (i : nat) : nat :=
  match i with
  | 0 => 0
  | S j =>
      if same_reading (page j) (previous page h0 j)
      then S (stall_count page h0 j)
      else 0
  end.

(** The readings numbered from 0: number 0 is what the function holds
    before the loop, number [i] what read [i] returned. *)
Definition reading_at (page : nat -> reading) (h0 : Z) (i : nat) : reading :=
  previous page h0 i.

(** The loop invariant at the head of the pass that makes read
    [scrolls st + 1]: the variables hold the previous readings and the
    stall count, which has stayed below 3 so far. *)
Definition invariant (page : nat -> reading) (h0 : Z) (st : state) : Prop :=
  last_height st = height (previous page h0 (scrolls st))
  /\ last_job_count st = job_count (previous page h0 (scrolls st))
  /\ consecutive_no_change st = stall_count page h0 (scrolls st)
  /\ forall i, i <= scrolls st -> stall_count page h0 i < 3.

(** A page given by its first readings, which then stays as the last of
    them. *)
Definition page_of (first : reading) (rest : list reading) (i : nat) : reading :=
  match i with
  | 0 => first
  | S j => nth j rest (List.last rest first)
  end.

(** The scenario of the specification: heights 100, 200, 200, 200 with
    5, 8, 8, 8 jobs, and a page that does not move afterwards. *)
Definition scenario_page : nat -> reading :=
  page_of (Reading 100 5) [Reading 200 8; Reading 200 8; Reading 200 8].

(** The loop when the browser calls of a pass can raise.  Lines 50, 66
    and 67 (the scroll to the bottom and the two reads) stand outside
    every handler of the function, so an exception of theirs leaves it:
    [page i] is then [Raise]. *)
Fixpoint scroll_loop_with_failures (fuel : nat) (page : nat -> res reading)
    (max_scrolls : nat) (st : state) : res (state * bool) :=
  match fuel with
  | 0 => Ok (st, false)
  | S fuel' =>
      if scrolls st <? max_scrolls then
        match page (scrolls st) with
        | Raise e => Raise e
        | Ok r =>
            let (st', stopped) := compare_and_count r st in
            if stopped then Ok (st', true)
            else scroll_loop_with_failures fuel' page max_scrolls st'
        end
      else Ok (st, false)
  end.

(** [scroll_to_load_all] with the read of line 39 and the reads of the
    passes as they come, raising or not. *)
Definition scroll_to_load_all_with_failures (page : nat -> res reading)
    (h0 : res Z) (max_scrolls : nat) : res (state * bool) :=
  match h0 with
  | Raise e => Raise e
  | Ok h => scroll_loop_with_failures max_scrolls page max_scrolls (initial h)
  end.

(** A page that first sits still, at the height read before the loop and
    with no job, for four reads, changes at read 5 and then stays. *)
Definition plateau_page : nat -> reading :=
  page_of (Reading 100 0)
          [Reading 100 0; Reading 100 0; Reading 100 0; Reading 200 8].

End Scroll.

(** ** The Zscaler listing: [extract_job_listings_zscaler],
    [handle_pagination] and [scrape_zscaler_jobs] (stream.py) *)
Module Zscaler.
Import PyStr.

(** The [<a>] of a card: its text and its [href] attribute, [None] when
    the attribute is absent. *)
Record Anchor := { a_text : string; a_href : option string }.

(** A card, an element of class [opening], as the three lookups the
    extraction makes on it: [find_element] returns the element (of which
    only the text is read) or raises. *)
Record Opening := {
  find_a : res Anchor;
  find_location : res string;
  find_department : res string
}.

(** The dictionary appended to [jobs_data]. *)
Record Job := {
  Title : string;
  Location : string;
  Department : string;
  Link : string
}.

(** Lines 113-120: only [NoSuchElementException] is handled here, any
    other exception leaves the card through the handler of line 143. *)
Definition read_location (job : Opening) : res string :=
  match find_location job with
  | Ok t =>
      let location_text := strip t in
      if truthy location_text && (String.length location_text <? 50)
         && negb (contains "footer" (lower location_text))
      then Ok location_text
      else Ok "Not specified"
  | Raise NoSuchElementException => Ok "Not specified"
  | Raise e => Raise e
  end.

(** Lines 122-127: the bare [except] absorbs every failure. *)
Definition read_department (job : Opening) : string :=
  match find_department job with
  | Ok t => strip t
  | Raise _ => "Not specified"
  end.

(** Lines 130-131: [any(existing_job["Title"] == title and
    existing_job["Link"] == link for existing_job in jobs_data)]. *)
Definition is_duplicate (jobs_data : list Job) (title link : string) : bool :=
  existsb (fun existing_job =>
             String.eqb (Title existing_job) title
             && String.eqb (Link existing_job) link) jobs_data.

(** Line 129: [title and title.strip() and link and link.strip()]. *)
Definition has_identity (title : string) (link : option string) : bool :=
  truthy title && truthy (strip title) && opt_truthy link
  && match link with Some l => truthy (strip l) | None => false end.

(** Lines 129-138, once the fields are read. *)
Definition append_if_new (jobs_data : list Job)
    (title location department : string) (link : option string) : list Job :=
  match link with
  | Some l =>
      if has_identity title link then
        if is_duplicate jobs_data title l then jobs_data
        else jobs_data ++ [{| Title := title; Location := location;
                              Department := department; Link := l |}]
      else jobs_data
  | None => jobs_data
  end.

(** Lines 108-138: the body of the [try] for one card.  An exception is
    raised before [jobs_data] is touched. *)
Definition card_body (jobs_data : list Job) (job : Opening) : res (list Job) :=
  match find_a job with
  | Raise e => Raise e
  | Ok a_elem =>
      let title := strip (a_text a_elem) in
      let link := a_href a_elem in
      match read_location job with
      | Raise e => Raise e
      | Ok location =>
          let department := read_department job in
          Ok (append_if_new jobs_data title location department link)
      end
  end.

(** Lines 106-145: a card that raises is logged and skipped. *)
Definition card_step (jobs_data : list Job) (job : Opening) : list Job :=
  match card_body jobs_data job with
  | Ok jobs_data' => jobs_data'
  | Raise _ => jobs_data
  end.

(** The function, on the answer of [find_elements(By.CLASS_NAME,
    "opening")]: when that call raises, the empty list is returned. *)
Definition extract_job_listings_zscaler (openings : res (list Opening))
    : list Job :=
  match openings with
  | Ok job_elements => fold_left card_step job_elements []
  | Raise _ => []
  end.

(** A candidate next-page link: [is_displayed()] and the class string
    ([get_attribute("class")] reads the [className] property, which is
    the empty string when the attribute is absent). *)
Record NextButton := { is_displayed : res bool; button_class : string }.

(** Lines 178-181: the first displayed button whose class does not
    contain "disabled"; an exception leaves the search. *)
Fixpoint first_enabled (next_buttons : list NextButton) : res (option NextButton) :=
  match next_buttons with
  | [] => Ok None
  | button :: rest =>
      match is_displayed button with
      | Raise e => Raise e
      | Ok shown =>
          if shown && negb (contains "disabled" (button_class button))
          then Ok (Some button)
          else first_enabled rest
      end
  end.

(** Lines 174-183: the [try] around the search; [except Exception: pass]
    leaves [next_button] at [None]. *)
Definition find_next_button (next_buttons : res (list NextButton))
    : option NextButton :=
  match next_buttons with
  | Raise _ => None
  | Ok l => match first_enabled l with
            | Ok b => b
            | Raise _ => None
            end
  end.

(** The board as the pagination sees it: the cards of the current page,
    the candidate next links, and what clicking the chosen one does.  On a
    [Page] the next page shows up; on a [DeadEnd] the click, or the wait
    for an [opening] that follows it, raises. *)
Inductive Site :=
| Page (openings : res (list Opening)) (next_buttons : res (list NextButton))
       (next : Site)
| DeadEnd (openings : res (list Opening))
          (next_buttons : res (list NextButton)).

Definition site_openings (s : Site) : res (list Opening) :=
  match s with Page o _ _ | DeadEnd o _ => o end.

Definition site_buttons (s : Site) : res (list NextButton) :=
  match s with Page _ b _ | DeadEnd _ b => b end.

Definition after_click (s : Site) : option Site :=
  match s with Page _ _ next => Some next | DeadEnd _ _ => None end.

(** [while page <= max_pages], lines 166-200. *)
Fixpoint pagination_loop (fuel : nat) (max_pages page : nat) (site : Site)
    (all_jobs : list Job) : list Job :=
  match fuel with
  | 0 => all_jobs
  | S fuel' =>
      if page <=? max_pages then
        let jobs_on_page := extract_job_listings_zscaler (site_openings site) in
        let all_jobs := all_jobs ++ jobs_on_page in
        match find_next_button (site_buttons site) with
        | None => all_jobs
        | Some _ =>
            match after_click site with
            | None => all_jobs
            | Some next =>
                pagination_loop fuel' max_pages (S page) next all_jobs
            end
        end
      else all_jobs
  end.

(** [handle_pagination(driver, max_pages)]: [page] starts at 1, so the
    loop makes at most [max_pages] passes. *)
Definition handle_pagination (site : Site) (max_pages : nat) : list Job :=
  pagination_loop max_pages max_pages 1 site [].

(** The pages the pagination extracts, in order, when it may make [n]
    passes. *)
Fixpoint visited (n : nat) (site : Site) : list (res (list Opening)) :=
  match n with
  | 0 => []
  | S n' =>
      site_openings site ::
      match find_next_button (site_buttons site), after_click site with
      | Some _, Some next => visited n' next
      | _, _ => []
      end
  end.

(** The identity pair of a record. *)
Definition identity (j : Job) : string * string := (Title j, Link j).

(** The identity pair a card reaches the duplicate check of line 130
    with: its lookups did not raise and line 129 let it through. *)
Definition card_identity (job : Opening) : option (string * string) :=
  match find_a job, read_location job with
  | Ok a_elem, Ok _ =>
      match a_href a_elem with
      | Some l =>
          if has_identity (strip (a_text a_elem)) (Some l)
          then Some (strip (a_text a_elem), l)
          else None
      | None => None
      end
  | _, _ => None
  end.

(** What the listing shows once loaded: the readings of the scroll loop,
    each of which may raise, and the paginated board. *)
Record Listing := {
  scroll_page : nat -> res Scroll.reading;
  scroll_height : res Z;
  board : Site
}.

(** Line 303: [scroll_to_load_all(driver)], with its default of 20
    scrolls. *)
Definition scroll_listing (l : Listing) : res (Scroll.state * bool) :=
  Scroll.scroll_to_load_all_with_failures (scroll_page l) (scroll_height l) 20.

(** The scroll of a listing goes through without an exception. *)
Definition scrolls_through (l : Listing) : bool := is_ok (scroll_listing l).

(** A browser session of [scrape_zscaler_jobs]. *)
Record Session := {
  (** [webdriver.Chrome(...)] and [set_page_load_timeout] *)
  start_driver : res unit;
  (** [driver.get(base_url)]; [handle_popups] absorbs its own failures *)
  open_board : res unit;
  (** the wait for an [opening], lines 276-278 *)
  wait_openings : res unit;
  (** the listing when no search is made *)
  listing : Listing;
  (** lines 289-298: [find_element(By.ID, "search_keywords")], typing the
      keyword and waiting for the results; [Ok] carries the listing the
      search leaves *)
  search : res Listing
}.

(** Line 310: [search_keyword.lower() in job["Title"].lower()]. *)
Definition matches (search_keyword : string) (job : Job) : bool :=
  contains (lower search_keyword) (lower (Title job)).

(** Lines 309-312: the filter is applied when there is a keyword and
    the list is not empty. *)
Definition filter_by_keyword (search_keyword : string) (all_jobs : list Job)
    : list Job :=
  if truthy search_keyword && negb (bool_decide (all_jobs = [])) then
    List.filter (matches search_keyword) all_jobs
  else all_jobs.

(** The body of the [try], lines 264-315. *)
Definition scrape_body (search_keyword : string) (max_pages : nat)
    (s : Session) : res (list Job) :=
  match start_driver s with
  | Raise e => Raise e
  | Ok _ =>
  match open_board s with
  | Raise e => Raise e
  | Ok _ =>
  match (match wait_openings s with
         | Ok _ => Ok tt
         | Raise TimeoutException => Ok tt
         | Raise e => Raise e
         end) with
  | Raise e => Raise e
  | Ok _ =>
  match (if truthy search_keyword then
           match search s with
           | Ok l => Ok l
           | Raise NoSuchElementException => Ok (listing s)
           | Raise e => Raise e
           end
         else Ok (listing s)) with
  | Raise e => Raise e
  | Ok shown =>
  match scroll_listing shown with
  | Raise e => Raise e
  | Ok _ =>
      let all_jobs := handle_pagination (board shown) max_pages in
      Ok (filter_by_keyword search_keyword all_jobs)
  end end end end end.

(** [scrape_zscaler_jobs]: [jobs_data] is still empty when the handler
    of line 317 runs. *)
Definition scrape_zscaler_jobs (search_keyword : string) (max_pages : nat)
    (s : Session) : list Job :=
  match scrape_body search_keyword max_pages s with
  | Ok jobs_data => jobs_data
  | Raise _ => []
  end.

(** The pages of a board, in the order its next links lead through
    them. *)
Fixpoint site_pages (site : Site) : list (res (list Opening)) :=
  match site with
  | Page o _ next => o :: site_pages next
  | DeadEnd o _ => [o]
  end.

(** Whether a session gets as far as the search of lines 286-301. *)
Definition reaches_search (s : Session) : bool :=
  is_ok (start_driver s) && is_ok (open_board s)
  && match wait_openings s with
     | Ok _ | Raise TimeoutException => true
     | Raise _ => false
     end.

End Zscaler.

(** ** Detail enrichment: [get_section_text] and
    [extract_job_descriptions] (stream.py, lines 328-445) *)
Module Detail.
Import PyStr.

(** A detail page is the sequence of sibling blocks of the job
    description.  A block has a tag, a class string, the texts of the
    [<strong>] elements directly inside it, and its rendered text. *)
Record Block := {
  tag_name : string;
  class_attr : string;
  strongs : list string;
  text : string
}.

(** [next_elem.find_element(By.TAG_NAME, "strong")]: the first one, or
    [NoSuchElementException]. *)
Definition find_strong (b : Block) : res string :=
  match strongs b with
  | s :: _ => Ok s
  | [] => Raise NoSuchElementException
  end.

(** Lines 350-356: a [<p>] holding a [<strong>] whose trimmed, lower-cased
    text contains "qualifications" or "what".  The bare [except] turns a
    missing [<strong>] into "not the next section". *)
Definition starts_next_section (next_elem : Block) : bool :=
  match
    (if String.eqb (lower (tag_name next_elem)) "p" then
       match find_strong next_elem with
       | Raise e => Raise e
       | Ok _ =>
           match find_strong next_elem with
           | Raise e => Raise e
           | Ok s =>
               let strong_text := lower (strip s) in
               Ok (contains "qualifications" strong_text
                   || contains "what" strong_text)
           end
       end
     else Ok false)
  with
  | Ok stop => stop
  | Raise _ => false
  end.

(** Line 359: a [<div>] whose class contains "content-nav". *)
Definition is_content_nav (next_elem : Block) : bool :=
  String.eqb (lower (tag_name next_elem)) "div"
  && contains "content-nav" (class_attr next_elem).

(** The [while True] of lines 342-364 over the siblings that follow the
    parent of the heading; the empty list is [nextElementSibling]
    returning nothing. *)
Fixpoint walk_siblings (siblings : list Block) (text_list : list string)
    : list string :=
  match siblings with
  | [] => text_list
  | next_elem :: rest =>
      if starts_next_section next_elem then text_list
      else if is_content_nav next_elem then text_list
      else walk_siblings rest (text_list ++ [strip (text next_elem)])
  end.

(** [get_section_text], on the siblings after the heading's parent. *)
Definition get_section_text (siblings : list Block) : string :=
  join (String "010" EmptyString) (List.filter truthy (walk_siblings siblings [])).

(** The [<strong>] elements of the blocks from index [i] on, in document
    order, each with the index of its parent block. *)
Fixpoint strongs_from (i : nat) (page : list Block) : list (nat * string) :=
  match page with
  | [] => []
  | b :: rest => map (pair i) (strongs b) ++ strongs_from (S i) rest
  end.

(** [driver.find_elements(By.TAG_NAME, "strong")] *)
Definition strong_elements (page : list Block) : list (nat * string) :=
  strongs_from 0 page.

(** The section under a heading: the walk from the sibling after its
    parent block. *)
Definition section_of (page : list Block) (strong : nat * string) : string :=
  get_section_text (drop (S (fst strong)) page).

Inductive kind := Minimum | Preferred.

(** Lines 421 and 426: the [if]/[elif] on the heading text. *)
Definition classify (heading_text : string) : option kind :=
  if contains "what we're looking for" heading_text
     || contains "minimum qualifications" heading_text
  then Some Minimum
  else if contains "what will make you stand out" heading_text
          || contains "preferred qualifications" heading_text
  then Some Preferred
  else None.

(** The heading text line 418 computes. *)
Definition heading_text (strong : nat * string) : string :=
  lower (strip (snd strong)).

(** One pass of the [for strong in strong_elements] loop on the pair
    [(min_qual_text, pref_qual_text)]. *)
Definition scan_step (page : list Block) (acc : string * string)
    (strong : nat * string) : string * string :=
  match classify (heading_text strong) with
  | Some Minimum => (section_of page strong, snd acc)
  | Some Preferred => (fst acc, section_of page strong)
  | None => acc
  end.

(** Lines 410-428. *)
Definition scan_headings (page : list Block) : string * string :=
  fold_left (scan_step page) (strong_elements page) (EmptyString, EmptyString).

(** A row of the frame after lines 380-384. *)
Record Row := {
  job : Zscaler.Job;
  Minimum_Qualifications : string;
  Preferred_Qualifications : string
}.

(** The frame built from scraped records: both columns are created
    empty. *)
Definition new_frame (jobs : list Zscaler.Job) : list Row :=
  map (fun j => {| job := j; Minimum_Qualifications := EmptyString;
                   Preferred_Qualifications := EmptyString |}) jobs.

Definition set_qualifications (r : Row) (q : string * string) : Row :=
  {| job := job r; Minimum_Qualifications := fst q;
     Preferred_Qualifications := snd q |}.

(** What a link answers: the page shown, or the exception raised by
    [driver.get] or by a read of that page. *)
Definition Web := string -> res (list Block).

(** Lines 406-428 for one row. Nothing is written to the frame before
    they are through. *)
Definition enrich_one (web : Web) (r : Row) : res (string * string) :=
  match web (Zscaler.Link (job r)) with
  | Raise e => Raise e
  | Ok page => Ok (scan_headings page)
  end.

(** What [extract_job_descriptions] leaves: the frame, the links given to
    [driver.get], and the exception the handler of line 436 logged. *)
Record Outcome := {
  result_df : list Row;
  opened : list string;
  logged : option exn
}.

(** [for i in range(max_jobs)] inside the single [try] of lines 396-438:
    the first exception ends the loop. *)
Fixpoint enrich_range (web : Web) (indices : list nat) (frame : list Row)
    (visited : list string) : Outcome :=
  match indices with
  | [] => {| result_df := frame; opened := visited; logged := None |}
  | i :: rest =>
      match frame !! i with
      | None => {| result_df := frame; opened := visited;
                   logged := Some KeyError |}
      | Some r =>
          let visited := visited ++ [Zscaler.Link (job r)] in
          match enrich_one web r with
          | Raise e => {| result_df := frame; opened := visited;
                          logged := Some e |}
          | Ok q =>
              enrich_range web rest (<[i := set_qualifications r q]> frame)
                           visited
          end
      end
  end.

(** Lines 374-377. *)
Definition cap (max_jobs : option nat) (df : list Row) : nat :=
  match max_jobs with
  | None => length df
  | Some m => m `min` length df
  end.

Definition extract_job_descriptions (web : Web) (df : list Row)
    (max_jobs : option nat) : Outcome :=
  enrich_range web (seq 0 (cap max_jobs df)) df [].

(** *** The section extractor as the specification words it *)

(** A heading-shaped element, a [<p>] around a [<strong>], whose
    lower-cased heading text contains a terminating marker. *)
Definition is_terminating_heading (b : Block) : bool :=
  String.eqb (lower (tag_name b)) "p"
  && match strongs b with
     | s :: _ => contains "qualifications" (lower (strip s))
                 || contains "what" (lower (strip s))
     | [] => false
     end.

(** A navigation-classed container: a [<div>] whose class names
    "content-nav". *)
Definition is_navigation_container (b : Block) : bool :=
  bool_decide (lower (tag_name b) = "div")
  && bool_decide (contains "content-nav" (class_attr b) = true).

(** The siblings before the first terminating heading or
    navigation-classed container. *)
Fixpoint before_boundary (siblings : list Block) : list Block :=
  match siblings with
  | [] => []
  | b :: rest =>
      if is_terminating_heading b || is_navigation_container b then []
      else b :: before_boundary rest
  end.

(** Their trimmed texts, the empty ones left out, joined by newlines. *)
Definition section_text_spec (siblings : list Block) : string :=
  join (String "010" EmptyString)
       (List.filter truthy
          (map (fun b => strip (text b)) (before_boundary siblings))).

(** *** The headings of one kind *)

Definition is_kind (k : kind) (strong : nat * string) : bool :=
  match classify (heading_text strong), k with
  | Some Minimum, Minimum => true
  | Some Preferred, Preferred => true
  | _, _ => false
  end.

(** The section under the last heading of kind [k] among [headings], or
    the empty string when there is none. *)
Definition last_section (page : list Block) (k : kind)
    (headings : list (nat * string)) : string :=
  match last (List.filter (is_kind k) headings) with
  | Some strong => section_of page strong
  | None => EmptyString
  end.

(** The section under the first heading of kind [k]. *)
Definition first_section (page : list Block) (k : kind)
    (headings : list (nat * string)) : string :=
  match head (List.filter (is_kind k) headings) with
  | Some strong => section_of page strong
  | None => EmptyString
  end.

(** *** The enrichment loop as a recursion over the rows *)

(** A row with the fields its page gives, when reading it does not
    raise. *)
Definition enriched (web : Web) (r : Row) : Row :=
  match enrich_one web r with
  | Ok q => set_qualifications r q
  | Raise _ => r
  end.

Definition row_link (r : Row) : string := Zscaler.Link (job r).

(** The rows in order up to the first one that raises: the rows left, the
    links opened, the exception. *)
Fixpoint enrich_rows (web : Web) (rows : list Row)
    : list Row * list string * option exn :=
  match rows with
  | [] => ([], [], None)
  | r :: rest =>
      match enrich_one web r with
      | Raise e => (r :: rest, [row_link r], Some e)
      | Ok q =>
          let '(rs, links, l) := enrich_rows web rest in
          (set_qualifications r q :: rs, row_link r :: links, l)
      end
  end.

End Detail.

(** ** The Microsoft search: [MicrosoftJobScraper] (app.py) *)
Module Microsoft.
Import PyStr.

(** A job card as the lookups [extract_job_cards] makes on it:
    the text of the first element an XPath finds, the [href] of the first
    [<a>], the [data-job-id] attribute.  [Raise] is a lookup or a read
    that raised. *)
Record JobElement := {
  find_xpath : string -> res string;
  find_href : res (option string);
  data_job_id : res (option string)
}.

(** The dictionary appended to [job_cards]; [url] may hold [None]. *)
Record JobCard := {
  title : string;
  location : string;
  days_ago : string;
  company : string;
  url : option string
}.

Definition title_selectors : list string :=
  [".//h3"; ".//h2"; ".//a[contains(@data-ph-at-id, 'job-title')]";
   ".//div[contains(@class, 'title')]"; ".//a[contains(@class, 'job-title')]"].

Definition location_selectors : list string :=
  [".//span[contains(@class, 'location')]"; ".//span[contains(text(), ',')]";
   ".//div[contains(@class, 'location')]";
   ".//span[contains(@data-ph-id, 'location')]"].

Definition date_selectors : list string :=
  [".//span[contains(text(), 'ago')]"; ".//span[contains(@class, 'date')]";
   ".//div[contains(@class, 'date')]"; ".//span[contains(@data-ph-id, 'date')]"].

(** The selector loops of lines 202-215, 222-234 and 241-253: the
    variable keeps the last text read, the loop stops at the first
    non-empty one, a lookup that raises is skipped. *)
Fixpoint try_selectors (find : string -> res string) (selectors : list string)
    (value : option string) : option string :=
  match selectors with
  | [] => value
  | selector :: rest =>
      match find selector with
      | Ok t =>
          let v := strip t in
          if truthy v then Some v else try_selectors find rest (Some v)
      | Raise _ => try_selectors find rest value
      end
  end.

(** [if not value: value = sentinel] *)
Definition or_sentinel (value : option string) (sentinel : string) : string :=
  if opt_truthy value then
    match value with Some v => v | None => sentinel end
  else sentinel.

(** Lines 259-270.  The sentinel is assigned only when reading
    [data-job-id] raises. *)
Definition extract_url (job_element : JobElement) : option string :=
  match find_href job_element with
  | Ok href => href
  | Raise _ =>
      match data_job_id job_element with
      | Ok job_id =>
          if opt_truthy job_id then
            match job_id with
            | Some i => Some ("https://careers.microsoft.com/us/en/job/" +:+ i)
            | None => None
            end
          else None
      | Raise _ => Some "Unknown URL"
      end
  end.

(** Lines 199-278 for one card.  Every lookup sits in a handler of its
    own, so the handler of line 280 has nothing left to catch. *)
Definition extract_card (job_element : JobElement) : JobCard :=
  {| title := or_sentinel (try_selectors (find_xpath job_element)
                                         title_selectors None) "Unknown Title";
     location := or_sentinel (try_selectors (find_xpath job_element)
                                            location_selectors None)
                             "Unknown Location";
     days_ago := or_sentinel (try_selectors (find_xpath job_element)
                                            date_selectors None) "Unknown Date";
     company := "Microsoft";
     url := extract_url job_element |}.

Definition card_selectors : list string :=
  ["div.job-card"; "div[data-ph-at-id='job-tile']"; "div.jobs-list > div";
   "li.search-result-item"].

(** Lines 183-196: the first selector whose wait succeeds and that finds
    a non-empty list; [None] is the [else] of the [for]. *)
Fixpoint find_job_elements (find_cards : string -> res (list JobElement))
    (selectors : list string) : option (list JobElement) :=
  match selectors with
  | [] => None
  | selector :: rest =>
      match find_cards selector with
      | Ok (e :: job_elements) => Some (e :: job_elements)
      | Ok [] => find_job_elements find_cards rest
      | Raise _ => find_job_elements find_cards rest
      end
  end.

Definition extract_job_cards (find_cards : string -> res (list JobElement))
    : list JobCard :=
  match find_job_elements find_cards card_selectors with
  | None => []
  | Some job_elements => map extract_card job_elements
  end.

(** A next-page control the wait of line 303 returned: the three
    attributes of line 308 ([class] reads the [className] property, a
    string; the other two are [None] when absent), and whether scrolling
    to it and clicking it raise. *)
Record Control := {
  attr_disabled : option string;
  attr_class : string;
  attr_aria_disabled : option string;
  scroll_into_view : res unit;
  click : res unit
}.

(** Line 308: [get_attribute("disabled") or "disabled" in
    get_attribute("class") or "disabled" in
    get_attribute("aria-disabled")], as a truth value.  The last operand
    is [TypeError] on [None]. *)
Definition disabled_check (next_button : Control) : res bool :=
  if opt_truthy (attr_disabled next_button) then Ok true
  else if contains "disabled" (attr_class next_button) then Ok true
  else match attr_aria_disabled next_button with
       | None => Raise TypeError
       | Some a => Ok (contains "disabled" a)
       end.

Definition next_selectors : list string :=
  ["//button[contains(@aria-label, 'Next page') or contains(@aria-label, 'next page')]";
   "//a[contains(@aria-label, 'Next page') or contains(@aria-label, 'next page')]";
   "//button[contains(text(), 'Next')]";
   "//a[contains(text(), 'Next')]";
   "//li[contains(@class, 'next')]/a";
   "//div[contains(@class, 'pagination')]//li[last()]/a";
   "//button[contains(@class, 'next')]"].

(** The [for next_selector in ...] of lines 293-339.  [controls] is the
    answer of the wait of line 303 per selector, [arrives] whether the
    wait for cards after a click succeeds.  The second component lists
    the selectors whose control had [click()] called on it. *)
Fixpoint try_next (controls : string -> res Control) (arrives : bool)
    (selectors : list string) (clicked : list string) : bool * list string :=
  match selectors with
  | [] => (false, clicked)
  | next_selector :: rest =>
      match controls next_selector with
      | Raise _ => try_next controls arrives rest clicked
      | Ok next_button =>
          match disabled_check next_button with
          | Raise _ => try_next controls arrives rest clicked
          | Ok true => (false, clicked)
          | Ok false =>
              match scroll_into_view next_button with
              | Raise _ => try_next controls arrives rest clicked
              | Ok _ =>
                  match click next_button with
                  | Raise _ =>
                      try_next controls arrives rest (clicked ++ [next_selector])
                  | Ok _ => (arrives, clicked ++ [next_selector])
                  end
              end
          end
      end
  end.

(** A page of results: the cards per card selector, the next-page
    control per selector, and the page a click leads to; on
    [LastResults] the wait after a click fails. *)
Inductive ResultsPage :=
| Results (find_cards : string -> res (list JobElement))
          (controls : string -> res Control) (next : ResultsPage)
| LastResults (find_cards : string -> res (list JobElement))
              (controls : string -> res Control).

Definition page_cards (p : ResultsPage) : string -> res (list JobElement) :=
  match p with Results c _ _ | LastResults c _ => c end.

Definition page_controls (p : ResultsPage) : string -> res Control :=
  match p with Results _ c _ | LastResults _ c => c end.

Definition page_after_click (p : ResultsPage) : option ResultsPage :=
  match p with Results _ _ n => Some n | LastResults _ _ => None end.

(** [go_to_next_page] on the current page. *)
Definition go_to_next_page (p : ResultsPage) : bool * list string :=
  try_next (page_controls p) (bool_decide (is_Some (page_after_click p)))
           next_selectors [].

(** What a run does to the browser, in order. *)
Inductive event :=
| EvNavigate
| EvExtractCards
| EvNextPage
| EvQuit.

(** The search page as [navigate_to_search_results] meets it. *)
Record SearchSite := {
  (** [setup_driver()] *)
  setup_driver : res unit;
  (** [driver.get(...)], line 72, outside the [try] *)
  driver_get : res unit;
  (** lines 78-85: waiting for the keyword input and typing into it *)
  keyword_input : res unit;
  (** lines 91-113: the location filter *)
  location_filter : res unit;
  (** lines 118-121: the search button *)
  search_button : res unit;
  (** lines 128-130: the wait for a card container *)
  results_wait : res unit;
  (** the first page of results *)
  results : ResultsPage
}.

(** [navigate_to_search_results]. *)
Definition navigate_to_search_results (s : SearchSite) : res bool :=
  match driver_get s with
  | Raise e => Raise e
  | Ok _ =>
      match keyword_input s with
      | Raise _ => Ok false
      | Ok _ =>
          let _ := match location_filter s with
                   | Ok _ => tt
                   | Raise _ => tt
                   end in
          match search_button s with
          | Raise _ => Ok false
          | Ok _ =>
              match results_wait s with
              | Ok _ => Ok true
              | Raise TimeoutException => Ok false
              | Raise _ => Ok false
              end
          end
      end
  end.

(** [while current_page < max_pages], lines 380-396. *)
Fixpoint scrape_pages (fuel : nat) (max_pages current_page : nat)
    (p : ResultsPage) (all_jobs : list JobCard) (events : list event)
    : list JobCard * list event :=
  match fuel with
  | 0 => (all_jobs, events)
  | S fuel' =>
      if current_page <? max_pages then
        if fst (go_to_next_page p) then
          match page_after_click p with
          | Some next =>
              scrape_pages fuel' max_pages (S current_page) next
                (all_jobs ++ extract_job_cards (page_cards next))
                (events ++ [EvNextPage; EvExtractCards])
          | None => (all_jobs, events ++ [EvNextPage])
          end
        else (all_jobs, events ++ [EvNextPage])
      else (all_jobs, events)
  end.

(** The body of the [try] of [scrape_jobs], lines 354-399, with the
    value of [all_jobs] at the point an exception leaves it. *)
Definition scrape_try (s : SearchSite) (max_pages : nat)
    : res (list JobCard) * list JobCard * list event :=
  match setup_driver s with
  | Raise e => (Raise e, [], [])
  | Ok _ =>
      match navigate_to_search_results s with
      | Raise e => (Raise e, [], [EvNavigate])
      | Ok false => (Ok [], [], [EvNavigate; EvQuit])
      | Ok true =>
          let first := extract_job_cards (page_cards (results s)) in
          let '(all_jobs, events) :=
            scrape_pages max_pages max_pages 1 (results s) first
                         [EvNavigate; EvExtractCards] in
          (Ok all_jobs, all_jobs, events)
      end
  end.

(** [scrape_jobs]: the handler of line 401 returns [all_jobs]; the
    [finally] quits the driver when there is one. *)
Definition scrape_jobs (s : SearchSite) (max_pages : nat)
    : res (list JobCard) * list event :=
  let '(r, all_jobs, events) := scrape_try s max_pages in
  let events := if is_ok (setup_driver s) then events ++ [EvQuit] else events in
  match r with
  | Ok jobs => (Ok jobs, events)
  | Raise _ => (Ok all_jobs, events)
  end.

(** A control with none of the three marks of line 308: no truthy
    [disabled] attribute, no "disabled" in its class, no [aria-disabled]
    attribute. *)
Definition unmarked (c : Control) : bool :=
  negb (opt_truthy (attr_disabled c))
  && negb (contains "disabled" (attr_class c))
  && negb (bool_decide (is_Some (attr_aria_disabled c))).

Definition is_extraction (ev : event) : bool :=
  match ev with EvExtractCards => true | _ => false end.

End Microsoft.

(** ** Concrete pages and sites *)
Module Scenarios.
Import PyStr.

(** A card with a title and a link and nothing else. *)
Definition card (t l : string) : Zscaler.Opening :=
  {| Zscaler.find_a := Ok {| Zscaler.a_text := t; Zscaler.a_href := Some l |};
     Zscaler.find_location := Raise NoSuchElementException;
     Zscaler.find_department := Raise NoSuchElementException |}.

(** The 2-page listing of the specification: 10 cards, then 4, with
    "SWE II" at "/job/1" on both pages. *)
Definition first_page : list Zscaler.Opening :=
  [card "SWE II" "/job/1"; card "Job 2" "/job/2"; card "Job 3" "/job/3";
   card "Job 4" "/job/4"; card "Job 5" "/job/5"; card "Job 6" "/job/6";
   card "Job 7" "/job/7"; card "Job 8" "/job/8"; card "Job 9" "/job/9";
   card "Job 10" "/job/10"].

Definition second_page : list Zscaler.Opening :=
  [card "SWE II" "/job/1"; card "Job 11" "/job/11"; card "Job 12" "/job/12";
   card "Job 13" "/job/13"].

Definition next_link : Zscaler.NextButton :=
  {| Zscaler.is_displayed := Ok true; Zscaler.button_class := "next" |}.

Definition two_page_site : Zscaler.Site :=
  Zscaler.Page (Ok first_page) (Ok [next_link])
    (Zscaler.DeadEnd (Ok second_page) (Ok [])).

(** Two cards whose titles differ in letter case only. *)
Definition case_variants : list Zscaler.Opening :=
  [card "SWE II" "/job/1"; card "swe ii" "/job/1"].

(** A session on the 2-page listing whose page has no search box. *)
Definition session_without_search_box : Zscaler.Session :=
  {| Zscaler.start_driver := Ok tt;
     Zscaler.open_board := Ok tt;
     Zscaler.wait_openings := Ok tt;
     Zscaler.listing :=
       {| Zscaler.scroll_page := fun i => Ok (Scroll.scenario_page i);
          Zscaler.scroll_height := Ok 100%Z;
          Zscaler.board := two_page_site |};
     Zscaler.search := Raise NoSuchElementException |}.

(** A plain paragraph and a heading paragraph of a detail page. *)
Definition para (t : string) : Detail.Block :=
  {| Detail.tag_name := "p"; Detail.class_attr := EmptyString;
     Detail.strongs := []; Detail.text := t |}.

Definition heading (t : string) : Detail.Block :=
  {| Detail.tag_name := "p"; Detail.class_attr := EmptyString;
     Detail.strongs := [t]; Detail.text := t |}.

(** The detail page of the specification:
    [A, "Minimum Qualifications", p1, p2, "Preferred Qualifications", p3]. *)
Definition detail_page : list Detail.Block :=
  [heading "A"; heading "Minimum Qualifications"; para "p1"; para "p2";
   heading "Preferred Qualifications"; para "p3"].


(** A page with two headings of the minimum vocabulary. *)
Definition two_minimum_headings : list Detail.Block :=
  [heading "Minimum Qualifications"; para "a degree";
   heading "What we're looking for"; para "five years"].

Definition job_at (t l : string) : Zscaler.Job :=
  {| Zscaler.Title := t; Zscaler.Location := "Not specified";
     Zscaler.Department := "Not specified"; Zscaler.Link := l |}.

(** Two records; the page of the first cannot be opened, the page of the
    second is the detail page above. *)
Definition two_rows : list Detail.Row :=
  Detail.new_frame [job_at "SWE II" "/job/1"; job_at "Job 2" "/job/2"].

Definition first_page_fails : Detail.Web :=
  fun link =>
    if String.eqb link "/job/2" then Ok detail_page
    else Raise WebDriverException.

(** One record whose page has the two minimum headings. *)
Definition one_row : list Detail.Row :=
  Detail.new_frame [job_at "SWE II" "/job/1"].

Definition serves_two_minimum_headings : Detail.Web :=
  fun _ => Ok two_minimum_headings.

(** A card on which no lookup finds anything: no title, location or
    date element, no [<a>], no [data-job-id] attribute. *)
Definition bare_card : Microsoft.JobElement :=
  {| Microsoft.find_xpath := fun _ => Raise NoSuchElementException;
     Microsoft.find_href := Raise NoSuchElementException;
     Microsoft.data_job_id := Ok None |}.

(** A card whose [<a>] has no [href]. *)
Definition card_without_href : Microsoft.JobElement :=
  {| Microsoft.find_xpath := fun _ => Ok "Software Engineer";
     Microsoft.find_href := Ok None;
     Microsoft.data_job_id := Ok (Some "1234") |}.

(** A Zscaler card whose department element is blank. *)
Definition blank_department_card : Zscaler.Opening :=
  {| Zscaler.find_a := Ok {| Zscaler.a_text := "SWE II";
                             Zscaler.a_href := Some "/job/1" |};
     Zscaler.find_location := Ok "Austin, TX";
     Zscaler.find_department := Ok " " |}.

(** Next-page controls: one with no mark at all, an anchor carrying a
    [disabled] attribute, one with [aria-disabled="false"]. *)
Definition plain_next : Microsoft.Control :=
  {| Microsoft.attr_disabled := None; Microsoft.attr_class := "next";
     Microsoft.attr_aria_disabled := None;
     Microsoft.scroll_into_view := Ok tt; Microsoft.click := Ok tt |}.

Definition anchor_marked_disabled : Microsoft.Control :=
  {| Microsoft.attr_disabled := Some "true"; Microsoft.attr_class := "next";
     Microsoft.attr_aria_disabled := None;
     Microsoft.scroll_into_view := Ok tt; Microsoft.click := Ok tt |}.

Definition aria_enabled_next : Microsoft.Control :=
  {| Microsoft.attr_disabled := None; Microsoft.attr_class := "next";
     Microsoft.attr_aria_disabled := Some "false";
     Microsoft.scroll_into_view := Ok tt; Microsoft.click := Ok tt |}.

(** A page that answers the selector for [<a>] labelled "Next page" by
    [first], the one for a [<button>] of class [next] by [second], and
    times out on the others. *)
Definition controls_of (first second : Microsoft.Control)
    : string -> res Microsoft.Control :=
  fun selector =>
    if String.eqb selector
         "//a[contains(@aria-label, 'Next page') or contains(@aria-label, 'next page')]"
    then Ok first
    else if String.eqb selector "//button[contains(@class, 'next')]"
    then Ok second
    else Raise TimeoutException.

Definition one_card : string -> res (list Microsoft.JobElement) :=
  fun _ => Ok [card_without_href].

Definition results_page (first second : Microsoft.Control)
    : Microsoft.ResultsPage :=
  Microsoft.Results one_card (controls_of first second)
    (Microsoft.LastResults one_card (fun _ => Raise TimeoutException)).

(** A search whose results never show up. *)
Definition results_time_out : Microsoft.SearchSite :=
  {| Microsoft.setup_driver := Ok tt;
     Microsoft.driver_get := Ok tt;
     Microsoft.keyword_input := Ok tt;
     Microsoft.location_filter := Raise TimeoutException;
     Microsoft.search_button := Ok tt;
     Microsoft.results_wait := Raise TimeoutException;
     Microsoft.results := results_page plain_next aria_enabled_next |}.

End Scenarios.

(** ** The record a card stands for *)
Module Cards.
Import PyStr Zscaler.

(** The dictionary lines 133-138 build for a card, when its lookups do
    not raise and line 129 lets it through. *)
Definition card_record (job : Opening) : option Job :=
  match find_a job, read_location job with
  | Ok a_elem, Ok location =>
      match a_href a_elem with
      | Some l =>
          if has_identity (strip (a_text a_elem)) (Some l)
          then Some {| Title := strip (a_text a_elem); Location := location;
                       Department := read_department job; Link := l |}
          else None
      | None => None
      end
  | _, _ => None
  end.

(** What lines 117 and 129 let into a record: a title and a link that
    are not blank, and a location that is the default or a non-empty
    text of fewer than 50 characters without "footer". *)
Definition well_formed (r : Job) : bool :=
  truthy (strip (Title r)) && truthy (strip (Link r))
  && (String.eqb (Location r) "Not specified"
      || (truthy (Location r) && (String.length (Location r) <? 50)
          && negb (contains "footer" (lower (Location r))))).

End Cards.

(** ** The job count of [extract_total_jobs] (app.py, lines 141-175) *)
Module TotalJobs.
Import PyStr.

Section Interpreter.

(** The text of an element is a sequence of code points.  Two facts
    about them belong to the interpreter and not to the repository, and
    are taken as they come:
    - [decimal c] is the value of [c] when it is a decimal digit, the
      characters the pattern [\d] matches and [int] reads, in any
      script;
    - [accepts run] tells whether [int] converts the run of digits
      [run] (it raises [ValueError] on runs beyond the interpreter's
      limit on the length of integer strings). *)
Variable decimal : N -> option N.
Variable accepts : list N -> bool.

(** [re.findall(r'\d+', text)]: the maximal runs of decimal digits, left
    to right.  [run] is the run being read, empty when there is none. *)
Fixpoint digit_runs (text : list N) (run : list N) : list (list N) :=
  match text with
  | [] => match run with [] => [] | _ => [run] end
  | c :: rest =>
      match decimal c with
      | Some _ => digit_runs rest (run ++ [c])
      | None =>
          match run with
          | [] => digit_runs rest []
          | _ => run :: digit_runs rest []
          end
      end
  end.

Definition findall_digits (text : list N) : list (list N) :=
  digit_runs text [].

(** The number [int] reads in a run of digits. *)
Definition value (run : list N) : N :=
  fold_left (fun n c => 10 * n + default 0 (decimal c))%N run 0%N.

Definition maximum (l : list N) : N := fold_right N.max 0%N l.

(** [max(int(num) for num in matches)]: [None] when an [int] raises. *)
Definition largest (matches : list (list N)) : option N :=
  if forallb accepts matches then Some (maximum (map value matches))
  else None.

(** Lines 152-165: the first selector whose element is found, whose
    text holds a number and whose numbers [int] converts decides; the
    bare [except] of line 164 skips a selector whose wait or whose
    [int] raises. *)
Fixpoint first_count (find_text : string -> res (list N))
    (selectors : list string) : option N :=
  match selectors with
  | [] => None
  | selector :: rest =>
      match find_text selector with
      | Ok text =>
          match findall_digits text with
          | [] => first_count find_text rest
          | matches =>
              match largest matches with
              | Some n => Some n
              | None => first_count find_text rest
              end
          end
      | Raise _ => first_count find_text rest
      end
  end.

(** A count selector that is passed over: its wait raises, its text
    holds no digit, or [int] refuses one of its numbers. *)
Definition passed_over (find_text : string -> res (list N)) (s : string)
    : Prop :=
  match find_text s with
  | Ok t => findall_digits t = []
            \/ forallb accepts (findall_digits t) = false
  | Raise _ => True
  end.

End Interpreter.

Definition count_selectors : list string :=
  ["//h2[contains(text(), 'result') or contains(text(), 'job') or contains(text(), 'showing')]";
   "//div[contains(text(), 'Showing') or contains(text(), 'results')]";
   "//span[contains(@class, 'result') and contains(text(), 'result')]";
   "//div[contains(@class, 'result-count')]"].

(** [extract_total_jobs]: [find_text] answers the wait of line 154 and
    the read of the element's text, [job_cards] the [find_elements] of
    line 168.  The outer handler turns an exception of the latter
    into 0. *)
Definition extract_total_jobs (decimal : N -> option N)
    (accepts : list N -> bool) (find_text : string -> res (list N))
    (job_cards : res (list Microsoft.JobElement)) : N :=
  match first_count decimal accepts find_text count_selectors with
  | Some n => n
  | None =>
      match job_cards with
      | Ok (c :: cards) => N.of_nat (length (c :: cards))
      | Ok [] => 0%N
      | Raise _ => 0%N
      end
  end.

(** The code points of a text of the model. *)
Definition codepoints (s : string) : list N :=
  map N_of_ascii (list_ascii_of_string s).

(** The digits 0 to 9 of ASCII, and a limit of 4300 digits. *)
Definition ascii_decimal (c : N) : option N :=
  if ((48 <=? c) && (c <=? 57))%N then Some (c - 48)%N else None.

Definition at_most_4300 (run : list N) : bool := length run <=? 4300.

End TotalJobs.

(** ** Selectors that find nothing *)
Module Fields.
Import PyStr.

(** A field selector whose lookup raises or finds blank text: the loops
    of lines 202-253 go on to the next one. *)
Definition blank_or_missing (find : string -> res string) (s : string) : Prop :=
  match find s with
  | Ok t => truthy (strip t) = false
  | Raise _ => True
  end.

(** A card selector whose wait raises or that finds no element. *)
Definition finds_no_card (find_cards : string -> res (list Microsoft.JobElement))
    (s : string) : Prop :=
  match find_cards s with
  | Ok [] => True
  | Ok (_ :: _) => False
  | Raise _ => True
  end.

End Fields.

(** ** The file name slug of [main] (stream.py, line 642) *)
Module Main.
Import PyStr.

(** [s.replace(' ', '_')] *)
Fixpoint replace_spaces (s : string) : string :=
  match s with
  | EmptyString => EmptyString
  | String c rest =>
      String (if Ascii.eqb c " " then "_"%char else c) (replace_spaces rest)
  end.

(** [search_keyword.replace(' ', '_') if search_keyword else 'all'] *)
Definition keyword_slug (search_keyword : string) : string :=
  if truthy search_keyword then replace_spaces search_keyword else "all".

End Main.

(** ** More pages *)
Module MoreScenarios.

(** A page that grows at every read. *)
Definition growing_page (i : nat) : Scroll.reading :=
  Scroll.Reading (Z.of_nat (100 * S i)) (S i).

(** A listing whose third pass of the scroll loop raises. *)
Definition scroll_breaks : Zscaler.Listing :=
  {| Zscaler.scroll_page := fun i =>
       if i =? 2 then Raise WebDriverException
       else Ok (Scroll.scenario_page i);
     Zscaler.scroll_height := Ok 100%Z;
     Zscaler.board := Scenarios.two_page_site |}.

(** A card whose anchor lookup raises. *)
Definition stale_card : Zscaler.Opening :=
  {| Zscaler.find_a := Raise StaleElementReferenceException;
     Zscaler.find_location := Ok "Austin, TX";
     Zscaler.find_department := Ok "Engineering" |}.

(** The card "SWE II" seen again with another location. *)
Definition relocated_card : Zscaler.Opening :=
  {| Zscaler.find_a := Ok {| Zscaler.a_text := " SWE II ";
                             Zscaler.a_href := Some "/job/1" |};
     Zscaler.find_location := Ok "Remote";
     Zscaler.find_department := Raise NoSuchElementException |}.

(** Next-page links: one not displayed, one of a disabled class. *)
Definition hidden_link : Zscaler.NextButton :=
  {| Zscaler.is_displayed := Ok false; Zscaler.button_class := "next" |}.

Definition disabled_link : Zscaler.NextButton :=
  {| Zscaler.is_displayed := Ok true;
     Zscaler.button_class := "next disabled" |}.

(** A detail page without any of the four heading markers. *)
Definition page_without_markers : list Detail.Block :=
  [Scenarios.heading "About the team"; Scenarios.para "We build things.";
   Scenarios.heading "Benefits"; Scenarios.para "Many."].

(** A web that serves the detail page of the specification for every
    link. *)
Definition serves_detail_page : Detail.Web :=
  fun _ => Ok Scenarios.detail_page.

(** A Microsoft card whose [<h3>] is blank and whose [<h2>] holds the
    title. *)
Definition card_with_h2_title : Microsoft.JobElement :=
  {| Microsoft.find_xpath := fun selector =>
       if String.eqb selector ".//h3" then Ok "  "
       else if String.eqb selector ".//h2" then Ok " Software Engineer II "
       else Raise NoSuchElementException;
     Microsoft.find_href := Ok (Some "https://careers.microsoft.com/job/77");
     Microsoft.data_job_id := Ok None |}.

(** Cards found by the second card selector only. *)
Definition tiles_only : string -> res (list Microsoft.JobElement) :=
  fun selector =>
    if String.eqb selector "div[data-ph-at-id='job-tile']"
    then Ok [card_with_h2_title; Scenarios.bare_card]
    else Raise TimeoutException.

(** A results header. *)
Definition results_header : string -> res (list N) :=
  fun selector =>
    if String.eqb selector
         "//div[contains(text(), 'Showing') or contains(text(), 'results')]"
    then Ok (TotalJobs.codepoints "Showing 1-20 of 245 results")
    else Raise TimeoutException.

(** A search that loads three pages of results. *)
Definition three_pages : Microsoft.ResultsPage :=
  Microsoft.Results Scenarios.one_card
    (Scenarios.controls_of Scenarios.plain_next Scenarios.aria_enabled_next)
    (Microsoft.Results Scenarios.one_card
       (Scenarios.controls_of Scenarios.plain_next Scenarios.aria_enabled_next)
       (Microsoft.LastResults Scenarios.one_card
          (fun _ => Raise TimeoutException))).

Definition search_with_results : Microsoft.SearchSite :=
  {| Microsoft.setup_driver := Ok tt;
     Microsoft.driver_get := Ok tt;
     Microsoft.keyword_input := Ok tt;
     Microsoft.location_filter := Raise TimeoutException;
     Microsoft.search_button := Ok tt;
     Microsoft.results_wait := Ok tt;
     Microsoft.results := three_pages |}.

End MoreScenarios.

(** ** The pages a Microsoft run scrapes *)
Module Pages.
Import Microsoft.

(** The pages reached from [p] by at most [n] successful calls of
    [go_to_next_page], in order. *)
Fixpoint pages_after (n : nat) (p : ResultsPage) : list ResultsPage :=
  match n with
  | 0 => []
  | S n' =>
      if fst (go_to_next_page p) then
        match page_after_click p with
        | Some next => next :: pages_after n' next
        | None => []
        end
      else []
  end.

(** The records [extract_job_cards] gives on a page. *)
Definition cards_of (p : ResultsPage) : list JobCard :=
  extract_job_cards (page_cards p).

End Pages.


(** * Properties *)

(** ** Strings *)
Section Strings.
Import PyStr.

Lemma prefix_app (a b : string) :
  String.prefix a b = true <-> exists post, b = a +:+ post.
Proof.
  revert b. induction a as [|c a IH]; intros b.
  - split; [intros _; now exists b | intros _; destruct b; reflexivity].
  - destruct b as [|d b]; simpl.
    + split; [discriminate | intros [post H]; discriminate].
    + destruct (Ascii.ascii_dec c d) as [->|Hne].
      * rewrite IH. split; intros [post H]; exists post.
        -- now rewrite H.
        -- now injection H.
      * split; [discriminate|]. intros [post H]. injection H as H1 H2.
        now subst.
Qed.

(** [contains sub s] is Python's [sub in s]: [sub] occurs in [s]. *)
Lemma contains_substring (sub s : string) :
  contains sub s = true <-> exists pre post, s = pre +:+ sub +:+ post.
Proof.
  split.
  - induction s as [|c s IH]; cbn [contains].
    + rewrite orb_false_r. intros H. apply prefix_app in H as [post ->].
      now exists EmptyString, post.
    + intros H. apply orb_true_iff in H as [H|H].
      * apply prefix_app in H as [post ->]. now exists EmptyString, post.
      * destruct (IH H) as (pre & post & ->). now exists (String c pre), post.
  - intros (pre & post & ->). induction pre as [|c pre IH].
    + assert (H : String.prefix sub (sub +:+ post) = true)
        by (apply prefix_app; eauto).
      change (EmptyString +:+ sub +:+ post) with (sub +:+ post).
      destruct (sub +:+ post); cbn [contains]; now rewrite H.
    + change (String c pre +:+ sub +:+ post)
        with (String c (pre +:+ sub +:+ post)).
      cbn [contains]. rewrite IH. apply orb_true_r.
Qed.

(** Trimming leaves no whitespace at the ends. *)
Lemma lstrip_head (s : string) (c : ascii) (r : string) :
  lstrip s = String c r -> isspace c = false.
Proof.
  induction s as [|d s IH]; simpl; [discriminate|].
  destruct (isspace d) eqn:Hd; [exact IH|].
  intros [= <- _]. exact Hd.
Qed.

Lemma strip_head (s : string) (c : ascii) (r : string) :
  strip s = String c r -> isspace c = false.
Proof. apply lstrip_head. Qed.

End Strings.

(** ** The scroll loop *)
Section ScrollLoop.
Import Scroll.
Variable page : nat -> reading.
Variable h0 : Z.
Variable max_scrolls : nat.

Lemma invariant_initial : invariant page h0 (initial h0).
Proof.
  repeat split; simpl; auto.
  intros i Hi. replace i with 0 by lia. simpl. lia.
Qed.

(** The counter after one pass, read off the code: one more on a repeat
    of both readings, 0 otherwise. *)
Lemma compare_and_count_counter (r : reading) (st : state) :
  consecutive_no_change (fst (compare_and_count r st)) =
  if (height r =? last_height st)%Z && (job_count r =? last_job_count st)
  then S (consecutive_no_change st) else 0.
Proof.
  unfold compare_and_count.
  destruct ((height r =? last_height st)%Z && (job_count r =? last_job_count st));
    [destruct (3 <=? S (consecutive_no_change st))|]; reflexivity.
Qed.

(** The break is taken exactly when the counter has reached 3. *)
Lemma compare_and_count_break (r : reading) (st : state) :
  snd (compare_and_count r st) =
  (3 <=? consecutive_no_change (fst (compare_and_count r st))).
Proof.
  unfold compare_and_count.
  destruct ((height r =? last_height st)%Z && (job_count r =? last_job_count st));
    [destruct (3 <=? S (consecutive_no_change st)) eqn:E|]; simpl; auto.
Qed.

Lemma same_reading_previous (st : state) :
  invariant page h0 st ->
  (height (page (scrolls st)) =? last_height st)%Z
  && (job_count (page (scrolls st)) =? last_job_count st)
  = same_reading (page (scrolls st)) (previous page h0 (scrolls st)).
Proof.
  intros (Hh & Hj & _). unfold same_reading. now rewrite Hh, Hj.
Qed.

(** One pass under the invariant: either it breaks, with the stall count
    at 3, or it re-establishes the invariant one read further. *)
Lemma compare_and_count_invariant (st : state) :
  invariant page h0 st ->
  let out := compare_and_count (page (scrolls st)) st in
  (snd out = true /\ scrolls (fst out) = scrolls st
   /\ consecutive_no_change (fst out) = 3
   /\ stall_count page h0 (S (scrolls st)) = 3)
  \/ (snd out = false /\ scrolls (fst out) = S (scrolls st)
      /\ invariant page h0 (fst out)).
Proof.
  intros Hinv. pose proof (same_reading_previous st Hinv) as Hsame.
  destruct Hinv as (Hh & Hj & Hc & Hlt).
  cbn zeta. unfold compare_and_count. rewrite Hsame.
  assert (Hstall : stall_count page h0 (S (scrolls st)) =
                   if same_reading (page (scrolls st)) (previous page h0 (scrolls st))
                   then S (stall_count page h0 (scrolls st)) else 0) by reflexivity.
  pose proof (Hlt (scrolls st) (le_n _)) as Hnow.
  destruct (same_reading (page (scrolls st)) (previous page h0 (scrolls st)))
    eqn:Hs.
  - destruct (3 <=? S (consecutive_no_change st)) eqn:E.
    + left. apply Nat.leb_le in E. cbn [fst snd scrolls consecutive_no_change].
      repeat split; lia.
    + right. apply Nat.leb_gt in E.
      unfold invariant. cbn [fst snd scrolls consecutive_no_change last_height
                             last_job_count previous].
      repeat split; auto; try lia.
      intros i Hi. destruct (decide (i = S (scrolls st))) as [->|Hne].
      * lia.
      * apply Hlt. lia.
  - right. unfold invariant.
    cbn [fst snd scrolls consecutive_no_change last_height last_job_count
         previous].
    repeat split; auto; try lia.
    intros i Hi. destruct (decide (i = S (scrolls st))) as [->|Hne].
    + lia.
    + apply Hlt. lia.
Qed.

(** The loop stops at the first read that brings the stall count to 3,
    or after [max_scrolls] reads. *)
Lemma scroll_loop_halts (fuel : nat) (st : state) :
  invariant page h0 st ->
  scrolls st <= max_scrolls ->
  max_scrolls <= scrolls st + fuel ->
  let out := scroll_loop fuel page max_scrolls st in
  reads out <= max_scrolls
  /\ (forall i, i < reads out -> stall_count page h0 i < 3)
  /\ (if snd out then stall_count page h0 (reads out) = 3
      else reads out = max_scrolls /\ stall_count page h0 (reads out) < 3)
  /\ consecutive_no_change (fst out) = stall_count page h0 (reads out).
Proof.
  revert st. induction fuel as [|fuel IH]; intros st Hinv Hle Hfuel; cbn zeta.
  - simpl. unfold reads; simpl. rewrite Nat.add_0_r.
    assert (scrolls st = max_scrolls) as Heq by lia.
    destruct Hinv as (_ & _ & Hc & Hlt).
    split; [lia|]. split; [intros i Hi; apply Hlt; lia|].
    split; [split; [lia | apply Hlt; lia] | exact Hc].
  - simpl. destruct (scrolls st <? max_scrolls) eqn:Hguard.
    + apply Nat.ltb_lt in Hguard.
      pose proof (compare_and_count_invariant st Hinv) as Hstep.
      cbn zeta in Hstep.
      destruct (compare_and_count (page (scrolls st)) st) as [st' stopped].
      simpl in Hstep.
      destruct Hstep as [(-> & Hs & Hc & Hstall) | (-> & Hs & Hinv')].
      * unfold reads; cbn [fst snd]. rewrite Hs, Nat.add_1_r.
        destruct Hinv as (_ & _ & _ & Hlt).
        split; [lia|]. split; [intros i Hi; apply Hlt; lia|].
        split; [exact Hstall | rewrite Hc; symmetry; exact Hstall].
      * apply IH; auto; lia.
    + apply Nat.ltb_ge in Hguard. unfold reads; simpl. rewrite Nat.add_0_r.
      assert (scrolls st = max_scrolls) as Heq by lia.
      destruct Hinv as (_ & _ & Hc & Hlt).
      split; [lia|]. split; [intros i Hi; apply Hlt; lia|].
      split; [split; [lia | apply Hlt; lia] | exact Hc].
Qed.

(** [scroll_to_load_all] gives the loop all the passes it can use. *)
Lemma scroll_to_load_all_halts :
  let out := scroll_to_load_all page h0 max_scrolls in
  reads out <= max_scrolls
  /\ (forall i, i < reads out -> stall_count page h0 i < 3)
  /\ (if snd out then stall_count page h0 (reads out) = 3
      else reads out = max_scrolls /\ stall_count page h0 (reads out) < 3)
  /\ consecutive_no_change (fst out) = stall_count page h0 (reads out).
Proof.
  apply scroll_loop_halts; simpl; try lia. apply invariant_initial.
Qed.

(** Three repeats after a change bring the count from 0 to 3. *)
Lemma stall_count_after_change (k : nat) :
  stall_count page h0 k = 0 ->
  (forall j, k <= j <= k + 3 -> reading_at page h0 j = reading_at page h0 k) ->
  stall_count page h0 (k + 1) = 1
  /\ stall_count page h0 (k + 2) = 2
  /\ stall_count page h0 (k + 3) = 3.
Proof.
  intros H0 Hstable.
  assert (Hrep : forall j, k <= j < k + 3 ->
            stall_count page h0 (S j) = S (stall_count page h0 j)).
  { intros j Hj. simpl.
    assert (page j = previous page h0 j) as ->.
    { change (reading_at page h0 (S j) = reading_at page h0 j).
      rewrite (Hstable (S j)), (Hstable j); auto; lia. }
    unfold same_reading. now rewrite Z.eqb_refl, Nat.eqb_refl. }
  replace (k + 1) with (S k) by lia.
  replace (k + 2) with (S (S k)) by lia.
  replace (k + 3) with (S (S (S k))) by lia.
  rewrite (Hrep (S (S k))), (Hrep (S k)), (Hrep k), H0; auto; lia.
Qed.

End ScrollLoop.

(** A page that changed at read [k] and repeats it three times stops the
    loop at read [k + 3], when the loop is still running at read [k]. *)
Lemma scroll_stops_three_after_change (page : nat -> Scroll.reading) (h0 : Z)
    (max_scrolls k : nat) :
  Scroll.stall_count page h0 k = 0 ->
  (forall i, i < k -> Scroll.stall_count page h0 i < 3) ->
  (forall j, k <= j <= k + 3 ->
     Scroll.reading_at page h0 j = Scroll.reading_at page h0 k) ->
  k + 3 <= max_scrolls ->
  Scroll.reads (Scroll.scroll_to_load_all page h0 max_scrolls) = k + 3
  /\ snd (Scroll.scroll_to_load_all page h0 max_scrolls) = true.
Proof.
  intros Hk Hbefore Hstable Hmax.
  destruct (stall_count_after_change page h0 k Hk Hstable) as (H1 & H2 & H3).
  destruct (scroll_to_load_all_halts page h0 max_scrolls) as (Hle & Hlt & Hend & _).
  set (out := Scroll.scroll_to_load_all page h0 max_scrolls) in *.
  assert (Hupto : forall i, i < k + 3 -> Scroll.stall_count page h0 i < 3).
  { intros i Hi.
    destruct (decide (i < k)) as [Hlow|Hhigh]; [now apply Hbefore|].
    assert (i = k \/ i = k + 1 \/ i = k + 2) as [->|[->| ->]] by lia; lia. }
  assert (Hn : Scroll.reads out = k + 3).
  { destruct (Nat.lt_trichotomy (Scroll.reads out) (k + 3)) as [Hlow|[Heq|Hhigh]].
    - specialize (Hupto _ Hlow). destruct (snd out); lia.
    - exact Heq.
    - specialize (Hlt _ Hhigh). lia. }
  split; [exact Hn|].
  destruct (snd out); [reflexivity|]. rewrite Hn in Hend. lia.
Qed.

(** The scenario page, whatever the height read before the loop: the
    loop makes five reads. *)
Lemma scenario_five_reads (h : Z) (max_scrolls : nat) :
  4 < max_scrolls ->
  Scroll.reads (Scroll.scroll_to_load_all Scroll.scenario_page h max_scrolls) = 5.
Proof.
  intros Hmax.
  apply (scroll_stops_three_after_change Scroll.scenario_page h max_scrolls 2).
  - reflexivity.
  - intros i Hi. assert (i = 0 \/ i = 1) as [->| ->] by lia.
    + simpl. lia.
    + change (Scroll.stall_count Scroll.scenario_page h 1)
        with (if (100 =? h)%Z && false then 1 else 0).
      rewrite andb_false_r. lia.
  - intros [|[|[|[|[|[|j]]]]]] Hj; try lia; reflexivity.
  - lia.
Qed.

(** C3, as amended. One pass of the scroll loop adds one to the stall
    counter when the height and the job count it reads both equal the
    previous readings and resets it to 0 otherwise, and breaks exactly
    when the counter has reached 3. The loop makes as many reads as it
    takes the stall count to reach 3, and at most [max_scrolls].  On the
    readings 100, 200, 200, 200 with 5, 8, 8, 8 jobs (and a page that
    stays so) the counter is 2 after the fourth read and the loop stops
    after the fifth.  A page that changed at read [k] (or never, [k = 0])
    and repeats that reading stops the loop at read [k + 3], provided the
    loop is still running at read [k] and [k + 3 <= max_scrolls]. *)
Theorem C3_scroll_loop_stops_on_third_stall (page : nat -> Scroll.reading)
    (h0 : Z) (max_scrolls : nat) :
  let out := Scroll.scroll_to_load_all page h0 max_scrolls in
  (forall r st,
      Scroll.consecutive_no_change (fst (Scroll.compare_and_count r st)) =
      if (Scroll.height r =? Scroll.last_height st)%Z
         && (Scroll.job_count r =? Scroll.last_job_count st)
      then S (Scroll.consecutive_no_change st) else 0)
  /\ (forall r st,
        snd (Scroll.compare_and_count r st) =
        (3 <=? Scroll.consecutive_no_change (fst (Scroll.compare_and_count r st))))
  /\ Scroll.consecutive_no_change (fst out)
     = Scroll.stall_count page h0 (Scroll.reads out)
  /\ Scroll.reads out <= max_scrolls
  /\ (forall i, i < Scroll.reads out -> Scroll.stall_count page h0 i < 3)
  /\ (if snd out then Scroll.stall_count page h0 (Scroll.reads out) = 3
      else Scroll.reads out = max_scrolls
           /\ Scroll.stall_count page h0 (Scroll.reads out) < 3)
  /\ (forall h m, 4 < m ->
        Scroll.stall_count Scroll.scenario_page h 4 = 2
        /\ Scroll.reads (Scroll.scroll_to_load_all Scroll.scenario_page h m) = 5)
  /\ (forall k,
        Scroll.stall_count page h0 k = 0 ->
        (forall i, i < k -> Scroll.stall_count page h0 i < 3) ->
        (forall j, k <= j <= k + 3 ->
           Scroll.reading_at page h0 j = Scroll.reading_at page h0 k) ->
        k + 3 <= max_scrolls ->
        Scroll.reads out = k + 3 /\ snd out = true).
Proof.
  cbn zeta.
  destruct (scroll_to_load_all_halts page h0 max_scrolls) as (Hle & Hlt & Hend & Hc).
  split; [intros r st; apply compare_and_count_counter|].
  split; [intros r st; apply compare_and_count_break|].
  split; [exact Hc|]. split; [exact Hle|]. split; [exact Hlt|].
  split; [exact Hend|].
  split.
  - intros h m Hm. split; [reflexivity | now apply scenario_five_reads].
  - intros k. apply scroll_stops_three_after_change.
Qed.

(** The theorem on the scenario page with the default ceiling of 20
    scrolls: the last change is read 2, the loop stops at read 5. *)
Lemma C3_scroll_loop_witness :
  Scroll.reads (Scroll.scroll_to_load_all Scroll.scenario_page 100 20) = 2 + 3
  /\ snd (Scroll.scroll_to_load_all Scroll.scenario_page 100 20) = true.
Proof.
  destruct (C3_scroll_loop_stops_on_third_stall Scroll.scenario_page 100 20)
    as (_ & _ & _ & _ & _ & _ & _ & Hk).
  apply (Hk 2).
  - reflexivity.
  - intros [|[|i]] Hi; simpl; lia.
  - intros [|[|[|[|[|[|j]]]]]] Hj; try lia; reflexivity.
  - lia.
Defined.

(** C3 as stated fails on its own scenario: with the default ceiling the
    loop does not stop after the fourth read, it makes a fifth.  And a
    page stable after read 5 does not keep the loop going until read 8
    when it had already sat still for three reads before. *)
Lemma C3_scenario_needs_fifth_read :
  Scroll.reads (Scroll.scroll_to_load_all Scroll.scenario_page 100 20) <> 4
  /\ Scroll.reads (Scroll.scroll_to_load_all Scroll.scenario_page 100 20) = 5
  /\ Scroll.reading_at Scroll.plateau_page 100 5
     <> Scroll.reading_at Scroll.plateau_page 100 4
  /\ (forall j, 5 <= j ->
        Scroll.reading_at Scroll.plateau_page 100 j
        = Scroll.reading_at Scroll.plateau_page 100 5)
  /\ Scroll.reads (Scroll.scroll_to_load_all Scroll.plateau_page 100 20) = 3.
Proof.
  split; [vm_compute; discriminate|]. split; [reflexivity|].
  split; [vm_compute; discriminate|]. split; [|reflexivity].
  intros [|[|[|[|[|[|[|j]]]]]]] Hj; try lia; reflexivity.
Qed.

(** ** Duplicate suppression on the Zscaler listing *)
Section Dedup.
Import PyStr Zscaler.

(** The duplicate test is exact equality of both strings of the pair. *)
Lemma is_duplicate_true (jobs_data : list Job) (title link : string) :
  is_duplicate jobs_data title link = true
  <-> exists existing_job, existing_job ∈ jobs_data
        /\ Title existing_job = title /\ Link existing_job = link.
Proof.
  unfold is_duplicate. rewrite existsb_exists. split.
  - intros (x & Hin & Heq). apply andb_true_iff in Heq as [Ht Hl].
    apply String.eqb_eq in Ht, Hl. exists x.
    split; [now apply list_elem_of_In | auto].
  - intros (x & Hin & Ht & Hl). exists x.
    split; [now apply list_elem_of_In |].
    apply andb_true_iff. split; now apply String.eqb_eq.
Qed.

Lemma is_duplicate_identity (jobs_data : list Job) (title link : string) :
  is_duplicate jobs_data title link = true
  <-> (title, link) ∈ identity <$> jobs_data.
Proof.
  rewrite is_duplicate_true, list_elem_of_fmap. unfold identity. split.
  - intros (x & Hin & <- & <-). eauto.
  - intros (x & Heq & Hin). injection Heq as -> ->. eauto.
Qed.

(** One card leaves the list as it is or appends one record whose pair
    was not there. *)
Lemma card_step_cases (jobs_data : list Job) (job : Opening) :
  (card_step jobs_data job = jobs_data
   /\ forall k, card_identity job = Some k -> k ∈ identity <$> jobs_data)
  \/ exists r, card_step jobs_data job = jobs_data ++ [r]
               /\ card_identity job = Some (identity r)
               /\ is_duplicate jobs_data (Title r) (Link r) = false.
Proof.
  unfold card_step, card_body, card_identity.
  destruct (find_a job) as [a|e]; [|left; split; [reflexivity | discriminate]].
  destruct (read_location job) as [loc|e];
    [|left; split; [reflexivity | discriminate]].
  unfold append_if_new.
  destruct (a_href a) as [l|]; [|left; split; [reflexivity | discriminate]].
  destruct (has_identity (strip (a_text a)) (Some l));
    [|left; split; [reflexivity | discriminate]].
  destruct (is_duplicate jobs_data (strip (a_text a)) l) eqn:Hdup.
  - left. split; [reflexivity|]. intros k [= <-].
    now apply is_duplicate_identity.
  - right. eexists. split; [reflexivity|]. split; [reflexivity | exact Hdup].
Qed.

Lemma card_step_keeps (jobs_data : list Job) (job : Opening) (k : string * string) :
  k ∈ identity <$> jobs_data -> k ∈ identity <$> card_step jobs_data job.
Proof.
  intros Hk. destruct (card_step_cases jobs_data job) as [[-> _]|(r & -> & _)]; auto.
  rewrite fmap_app. apply elem_of_app. now left.
Qed.

Lemma card_step_records (jobs_data : list Job) (job : Opening) (k : string * string) :
  card_identity job = Some k -> k ∈ identity <$> card_step jobs_data job.
Proof.
  intros Hk.
  destruct (card_step_cases jobs_data job) as [[-> Hin]|(r & -> & Hid & _)]; auto.
  rewrite fmap_app. apply elem_of_app. right.
  rewrite Hk in Hid. injection Hid as ->. simpl. apply list_elem_of_singleton.
  reflexivity.
Qed.

Lemma card_step_NoDup (jobs_data : list Job) (job : Opening) :
  NoDup (identity <$> jobs_data) -> NoDup (identity <$> card_step jobs_data job).
Proof.
  intros Hnd.
  destruct (card_step_cases jobs_data job) as [[-> _]|(r & -> & _ & Hdup)]; auto.
  rewrite fmap_app. apply NoDup_app. split; [exact Hnd|]. split.
  - intros k Hk Hr. simpl in Hr. apply list_elem_of_singleton in Hr. subst k.
    apply (proj2 (is_duplicate_identity jobs_data (Title r) (Link r))) in Hk.
    congruence.
  - simpl. apply NoDup_singleton.
Qed.

Lemma fold_card_step_NoDup (cards : list Opening) (jobs_data : list Job) :
  NoDup (identity <$> jobs_data) ->
  NoDup (identity <$> fold_left card_step cards jobs_data).
Proof.
  revert jobs_data. induction cards as [|c cards IH]; intros jobs_data Hnd; simpl.
  - exact Hnd.
  - apply IH. now apply card_step_NoDup.
Qed.

Lemma fold_card_step_keeps (cards : list Opening) (jobs_data : list Job)
    (k : string * string) :
  k ∈ identity <$> jobs_data ->
  k ∈ identity <$> fold_left card_step cards jobs_data.
Proof.
  revert jobs_data. induction cards as [|c cards IH]; intros jobs_data Hk; simpl.
  - exact Hk.
  - apply IH. now apply card_step_keeps.
Qed.

Lemma fold_card_step_records (cards : list Opening) (jobs_data : list Job)
    (job : Opening) (k : string * string) :
  job ∈ cards -> card_identity job = Some k ->
  k ∈ identity <$> fold_left card_step cards jobs_data.
Proof.
  revert jobs_data. induction cards as [|c cards IH]; intros jobs_data Hin Hk.
  - inversion Hin.
  - simpl. apply elem_of_cons in Hin as [->|Hin].
    + apply fold_card_step_keeps. now apply card_step_records.
    + now apply IH.
Qed.

(** One extraction pass never yields the same pair twice. *)
Lemma extract_NoDup (openings : res (list Opening)) :
  NoDup (identity <$> extract_job_listings_zscaler openings).
Proof.
  destruct openings as [cards|e]; simpl.
  - apply fold_card_step_NoDup. simpl. apply NoDup_nil_2.
  - apply NoDup_nil_2.
Qed.

(** The pagination appends the passes of the pages it visits. *)
Lemma pagination_loop_visited (fuel max_pages page : nat) (site : Site)
    (all_jobs : list Job) :
  max_pages + 1 - page <= fuel ->
  pagination_loop fuel max_pages page site all_jobs =
  all_jobs ++ concat (map extract_job_listings_zscaler
                          (visited (max_pages + 1 - page) site)).
Proof.
  revert page site all_jobs.
  induction fuel as [|fuel IH]; intros page site all_jobs Hfuel.
  - replace (max_pages + 1 - page) with 0 by lia. simpl.
    now rewrite app_nil_r.
  - simpl. destruct (page <=? max_pages) eqn:Hguard.
    + apply Nat.leb_le in Hguard.
      replace (max_pages + 1 - page) with (S (max_pages + 1 - S page)) by lia.
      simpl.
      destruct (find_next_button (site_buttons site)) as [b|].
      * destruct (after_click site) as [next|].
        -- rewrite IH by lia. now rewrite <- app_assoc.
        -- simpl. now rewrite app_nil_r.
      * simpl. now rewrite app_nil_r.
    + apply Nat.leb_gt in Hguard.
      replace (max_pages + 1 - page) with 0 by lia. simpl.
      now rewrite app_nil_r.
Qed.

Lemma handle_pagination_visited (site : Site) (max_pages : nat) :
  handle_pagination site max_pages =
  concat (map extract_job_listings_zscaler (visited max_pages site)).
Proof.
  unfold handle_pagination. rewrite pagination_loop_visited by lia.
  simpl. now replace (max_pages + 1 - 1) with max_pages by lia.
Qed.

End Dedup.

(** C1 as stated fails: on the 2-page listing with 10 and 4 cards and
    "SWE II" at "/job/1" on both pages, the pagination returns 14
    records, two of them with that pair. *)
Lemma C1_cross_page_duplicate_is_kept :
  length (Zscaler.extract_job_listings_zscaler (Ok Scenarios.first_page)) = 10
  /\ length (Zscaler.extract_job_listings_zscaler (Ok Scenarios.second_page)) = 4
  /\ length (Zscaler.handle_pagination Scenarios.two_page_site 3) = 14
  /\ length (Zscaler.handle_pagination Scenarios.two_page_site 3) <> 13
  /\ ~ NoDup (Zscaler.identity <$> Zscaler.handle_pagination Scenarios.two_page_site 3).
Proof.
  split; [reflexivity|]. split; [reflexivity|]. split; [reflexivity|].
  split; [vm_compute; discriminate|].
  intros Hnd. rewrite NoDup_alt in Hnd.
  specialize (Hnd 0 10 ("SWE II", "/job/1") eq_refl eq_refl). discriminate.
Qed.

(** C1, as amended. The records one page's extraction pass yields never
    repeat a (title, link) pair; the pagination returns the passes of the
    pages it visits one after the other, with nothing removed across
    pages; on the 2-page listing of 10 and 4 cards sharing one pair it
    returns 14 records. *)
Theorem C1_duplicates_suppressed_within_a_page (site : Zscaler.Site)
    (max_pages : nat) :
  (forall openings,
      NoDup (Zscaler.identity <$> Zscaler.extract_job_listings_zscaler openings))
  /\ Zscaler.handle_pagination site max_pages
     = concat (map Zscaler.extract_job_listings_zscaler
                   (Zscaler.visited max_pages site))
  /\ Zscaler.visited 3 Scenarios.two_page_site
     = [Ok Scenarios.first_page; Ok Scenarios.second_page]
  /\ length (Zscaler.handle_pagination Scenarios.two_page_site 3) = 14.
Proof.
  split; [apply extract_NoDup|].
  split; [apply handle_pagination_visited|].
  split; reflexivity.
Qed.

(** C10. The duplicate test holds exactly when an earlier record of the
    pass has the same title and the same link as strings, so a card that
    reaches it is appended if and only if there is no such record; and
    two cards of one pass whose identity pairs differ, be it in letter
    case only, both have their record in the output. *)
Theorem C10_duplicates_compared_by_exact_strings
    (jobs_data : list Zscaler.Job) (title location department link : string)
    (cards : list Zscaler.Opening) (i1 i2 : nat) (c1 c2 : Zscaler.Opening)
    (k1 k2 : string * string) :
  Zscaler.has_identity title (Some link) = true ->
  cards !! i1 = Some c1 -> cards !! i2 = Some c2 ->
  Zscaler.card_identity c1 = Some k1 -> Zscaler.card_identity c2 = Some k2 ->
  k1 <> k2 ->
  let earlier := exists e, e ∈ jobs_data /\ Zscaler.Title e = title
                           /\ Zscaler.Link e = link in
  let record := {| Zscaler.Title := title; Zscaler.Location := location;
                   Zscaler.Department := department; Zscaler.Link := link |} in
  let appended := Zscaler.append_if_new jobs_data title location department
                                        (Some link) in
  let out := Zscaler.extract_job_listings_zscaler (Ok cards) in
  (Zscaler.is_duplicate jobs_data title link = true <-> earlier)
  /\ (appended = jobs_data ++ [record] <-> ~ earlier)
  /\ (appended = jobs_data <-> earlier)
  /\ exists r1 r2, r1 ∈ out /\ r2 ∈ out /\ Zscaler.identity r1 = k1
                   /\ Zscaler.identity r2 = k2 /\ r1 <> r2.
Proof.
  intros Hid H1 H2 Hk1 Hk2 Hne. cbn zeta.
  pose proof (is_duplicate_true jobs_data title link) as Hdup.
  split; [exact Hdup|].
  assert (Hlen : jobs_data ++ [ {| Zscaler.Title := title;
                                   Zscaler.Location := location;
                                   Zscaler.Department := department;
                                   Zscaler.Link := link |} ] <> jobs_data).
  { intros Heq. apply (f_equal length) in Heq.
    rewrite length_app in Heq. simpl in Heq. lia. }
  unfold Zscaler.append_if_new. rewrite Hid.
  destruct (Zscaler.is_duplicate jobs_data title link) eqn:E.
  - assert (He : exists e, e ∈ jobs_data /\ Zscaler.Title e = title
                           /\ Zscaler.Link e = link) by now apply Hdup.
    split; [split; [intros Heq; now symmetry in Heq | intros Hn; now destruct Hn]|].
    split; [split; auto|].
    apply list_elem_of_lookup_2 in H1, H2.
    pose proof (fold_card_step_records cards [] c1 k1 H1 Hk1) as Hr1.
    pose proof (fold_card_step_records cards [] c2 k2 H2 Hk2) as Hr2.
    apply list_elem_of_fmap in Hr1 as (r1 & -> & Hr1).
    apply list_elem_of_fmap in Hr2 as (r2 & -> & Hr2).
    exists r1, r2. repeat split; auto. congruence.
  - assert (He : ~ exists e, e ∈ jobs_data /\ Zscaler.Title e = title
                             /\ Zscaler.Link e = link).
    { intros He. apply Hdup in He. congruence. }
    split; [split; auto|].
    split; [split; [intros Heq; now apply Hlen in Heq | intros Hn; now destruct He]|].
    apply list_elem_of_lookup_2 in H1, H2.
    pose proof (fold_card_step_records cards [] c1 k1 H1 Hk1) as Hr1.
    pose proof (fold_card_step_records cards [] c2 k2 H2 Hk2) as Hr2.
    apply list_elem_of_fmap in Hr1 as (r1 & -> & Hr1).
    apply list_elem_of_fmap in Hr2 as (r2 & -> & Hr2).
    exists r1, r2. repeat split; auto. congruence.
Qed.

(** The theorem on two cards "SWE II" and "swe ii" with the same link:
    the second is appended after the first, and both are in the output
    of the pass. *)
Lemma C10_case_variants_witness :
  Zscaler.append_if_new
    (Zscaler.extract_job_listings_zscaler (Ok [Scenarios.card "SWE II" "/job/1"]))
    "swe ii" "Not specified" "Not specified" (Some "/job/1")
  = Zscaler.extract_job_listings_zscaler (Ok [Scenarios.card "SWE II" "/job/1"])
    ++ [ {| Zscaler.Title := "swe ii"; Zscaler.Location := "Not specified";
            Zscaler.Department := "Not specified"; Zscaler.Link := "/job/1" |} ]
  /\ exists r1 r2,
       r1 ∈ Zscaler.extract_job_listings_zscaler (Ok Scenarios.case_variants)
       /\ r2 ∈ Zscaler.extract_job_listings_zscaler (Ok Scenarios.case_variants)
       /\ Zscaler.identity r1 = ("SWE II", "/job/1")
       /\ Zscaler.identity r2 = ("swe ii", "/job/1") /\ r1 <> r2.
Proof.
  destruct (C10_duplicates_compared_by_exact_strings
              (Zscaler.extract_job_listings_zscaler
                 (Ok [Scenarios.card "SWE II" "/job/1"]))
              "swe ii" "Not specified" "Not specified" "/job/1"
              Scenarios.case_variants 0 1
              (Scenarios.card "SWE II" "/job/1") (Scenarios.card "swe ii" "/job/1")
              ("SWE II", "/job/1") ("swe ii", "/job/1"))
    as (_ & Happ & _ & Hboth);
    try reflexivity; try discriminate.
  split; [|exact Hboth].
  apply Happ. intros (e & He & Ht & _).
  vm_compute in He. apply list_elem_of_singleton in He. subst e. discriminate.
Defined.

(** ** The keyword filter of [scrape_zscaler_jobs] *)
Section KeywordFilter.
Import PyStr Zscaler.

Lemma truthy_nonempty (s : string) : s <> EmptyString -> truthy s = true.
Proof.
  intros Hs. unfold truthy. destruct (String.eqb s EmptyString) eqn:E; auto.
  apply String.eqb_eq in E. contradiction.
Qed.

(** Line 309 skips the filter on an empty list, which the filter would
    leave empty anyway. *)
Lemma filter_by_keyword_filter (search_keyword : string) (all_jobs : list Job) :
  truthy search_keyword = true ->
  filter_by_keyword search_keyword all_jobs
  = List.filter (matches search_keyword) all_jobs.
Proof.
  intros Hkw. unfold filter_by_keyword. rewrite Hkw.
  destruct all_jobs as [|j l]; reflexivity.
Qed.

(** With a keyword, the value returned is the filter of line 310 applied
    to the records of the listing the search left, or of the unsearched
    listing when there is no search box; any other failure gives the
    empty list. *)
Lemma scrape_with_keyword (search_keyword : string) (max_pages : nat) (s : Session) :
  truthy search_keyword = true ->
  scrape_zscaler_jobs search_keyword max_pages s =
  if reaches_search s then
    match search s with
    | Ok shown =>
        if scrolls_through shown then
          List.filter (matches search_keyword)
                      (handle_pagination (board shown) max_pages)
        else []
    | Raise NoSuchElementException =>
        if scrolls_through (listing s) then
          List.filter (matches search_keyword)
                      (handle_pagination (board (listing s)) max_pages)
        else []
    | Raise _ => []
    end
  else [].
Proof.
  intros Hkw. unfold scrape_zscaler_jobs, scrape_body, reaches_search,
    scrolls_through.
  rewrite Hkw.
  destruct (start_driver s) as [u|e]; [|reflexivity].
  destruct (open_board s) as [u'|e]; [|reflexivity].
  destruct (wait_openings s) as [u''|[]]; cbn [is_ok andb]; try reflexivity;
    (destruct (search s) as [shown|[]]; try reflexivity;
     match goal with
     | |- context [scroll_listing ?l] => destruct (scroll_listing l)
     end; cbn [is_ok]; try reflexivity;
     cbn zeta; now rewrite filter_by_keyword_filter).
Qed.

Lemma Forall_filter_matches (search_keyword : string) (all_jobs : list Job) :
  Forall (fun job => contains (lower search_keyword) (lower (Title job)) = true)
         (List.filter (matches search_keyword) all_jobs).
Proof.
  apply Forall_forall. intros j Hj.
  apply list_elem_of_In, filter_In in Hj. exact (proj2 Hj).
Qed.

(** C7. With a non-empty keyword every record [scrape_zscaler_jobs]
    returns has the keyword in its title, both lower-cased; and the list
    returned is the same filter of the collected records when the search
    box was found and used as when it was not (the scroll of the listing
    shown going through; when it raises the run returns the empty
    list). *)
Theorem C7_keyword_is_substring_of_every_title (search_keyword : string)
    (max_pages : nat) (s : Session) :
  search_keyword <> EmptyString ->
  Forall (fun job => contains (lower search_keyword) (lower (Title job)) = true)
         (scrape_zscaler_jobs search_keyword max_pages s)
  /\ Forall (fun job => exists pre post,
               lower (Title job) = pre +:+ lower search_keyword +:+ post)
            (scrape_zscaler_jobs search_keyword max_pages s)
  /\ (reaches_search s = true ->
      (forall shown, search s = Ok shown -> scrolls_through shown = true ->
         scrape_zscaler_jobs search_keyword max_pages s
         = List.filter (matches search_keyword)
                       (handle_pagination (board shown) max_pages))
      /\ (search s = Raise NoSuchElementException ->
          scrolls_through (listing s) = true ->
          scrape_zscaler_jobs search_keyword max_pages s
          = List.filter (matches search_keyword)
                        (handle_pagination (board (listing s)) max_pages))).
Proof.
  intros Hne. apply truthy_nonempty in Hne.
  rewrite (scrape_with_keyword search_keyword max_pages s Hne).
  assert (Hall : Forall (fun job => contains (lower search_keyword)
                                      (lower (Title job)) = true)
                   (if reaches_search s then
                      match search s with
                      | Ok shown =>
                          if scrolls_through shown then
                            List.filter (matches search_keyword)
                              (handle_pagination (board shown) max_pages)
                          else []
                      | Raise NoSuchElementException =>
                          if scrolls_through (listing s) then
                            List.filter (matches search_keyword)
                              (handle_pagination (board (listing s)) max_pages)
                          else []
                      | Raise _ => []
                      end
                    else [])).
  { destruct (reaches_search s); [|constructor].
    destruct (search s) as [shown|[]]; try constructor.
    - destruct (scrolls_through shown);
        [apply Forall_filter_matches | constructor].
    - destruct (scrolls_through (listing s));
        [apply Forall_filter_matches | constructor]. }
  split; [exact Hall|]. split.
  - eapply Forall_impl; [exact Hall|].
    intros job Hjob. now apply contains_substring.
  - intros ->. split.
    + intros shown -> ->. reflexivity.
    + intros -> ->. reflexivity.
Qed.

End KeywordFilter.

(** The theorem on a session whose page has no search box, with the
    keyword "JOB": the records returned all have "job" in their
    lower-cased title. *)
Lemma C7_keyword_filter_witness :
  Forall (fun job => PyStr.contains (PyStr.lower "JOB")
                       (PyStr.lower (Zscaler.Title job)) = true)
         (Zscaler.scrape_zscaler_jobs "JOB" 3 Scenarios.session_without_search_box)
  /\ length (Zscaler.scrape_zscaler_jobs "JOB" 3
               Scenarios.session_without_search_box) = 12.
Proof.
  split; [|reflexivity].
  apply (C7_keyword_is_substring_of_every_title "JOB" 3
           Scenarios.session_without_search_box).
  discriminate.
Defined.

(** ** The section extractor *)
Section SectionExtractor.
Import PyStr Detail.

(** The test of lines 350-356 is the terminating-heading test. *)
Lemma starts_next_section_heading (b : Block) :
  starts_next_section b = is_terminating_heading b.
Proof.
  unfold starts_next_section, is_terminating_heading, find_strong.
  destruct (String.eqb (lower (tag_name b)) "p"); [|reflexivity].
  destruct (strongs b); reflexivity.
Qed.

(** The test of line 359 is the navigation-container test. *)
Lemma is_content_nav_container (b : Block) :
  is_content_nav b = is_navigation_container b.
Proof.
  unfold is_content_nav, is_navigation_container.
  destruct (String.eqb (lower (tag_name b)) "div") eqn:E.
  - apply String.eqb_eq in E. rewrite bool_decide_eq_true_2 by exact E.
    destruct (contains "content-nav" (class_attr b)); reflexivity.
  - apply String.eqb_neq in E. now rewrite bool_decide_eq_false_2 by exact E.
Qed.

(** The walk collects the trimmed texts of the siblings before the
    boundary, in order, after what it already holds. *)
Lemma walk_siblings_before_boundary (siblings : list Block) (text_list : list string) :
  walk_siblings siblings text_list =
  text_list ++ map (fun b => strip (text b)) (before_boundary siblings).
Proof.
  revert text_list. induction siblings as [|b rest IH]; intros text_list; simpl.
  - now rewrite app_nil_r.
  - rewrite starts_next_section_heading.
    rewrite is_content_nav_container.
    destruct (is_terminating_heading b); simpl; [now rewrite app_nil_r|].
    destruct (is_navigation_container b); simpl; [now rewrite app_nil_r|].
    rewrite IH, <- app_assoc. reflexivity.
Qed.

Lemma get_section_text_spec (siblings : list Block) :
  get_section_text siblings = section_text_spec siblings.
Proof.
  unfold get_section_text, section_text_spec.
  now rewrite walk_siblings_before_boundary.
Qed.





End SectionExtractor.


(** ** The detail enricher *)
Section Enricher.
Import PyStr Detail.

Lemma last_section_snoc (page : list Block) (k : kind)
    (headings : list (nat * string)) (strong : nat * string) :
  last_section page k (headings ++ [strong]) =
  if is_kind k strong then section_of page strong
  else last_section page k headings.
Proof.
  unfold last_section. rewrite List.filter_app. simpl.
  destruct (is_kind k strong).
  - now rewrite last_snoc.
  - now rewrite app_nil_r.
Qed.

(** The loop over the headings keeps, for each kind, the section of the
    last heading of that kind. *)
Lemma scan_fold_last (page : list Block) (headings : list (nat * string)) :
  fold_left (scan_step page) headings (EmptyString, EmptyString) =
  (last_section page Minimum headings, last_section page Preferred headings).
Proof.
  induction headings as [|strong headings IH] using rev_ind.
  - reflexivity.
  - rewrite fold_left_app, IH. simpl. rewrite !last_section_snoc.
    unfold scan_step, is_kind.
    destruct (classify (heading_text strong)) as [[]|]; reflexivity.
Qed.

(** C5, as amended. For each kind the enricher ends with the section of
    the last heading of that kind on the page (a heading of both
    vocabularies counting as minimum only), and with the empty string
    when the page has no such heading; on a page with two headings of
    the minimum vocabulary the field holds the section of the second. *)
Theorem C5_last_matching_heading_wins (web : Web) (r : Row) (page : list Block) :
  scan_headings page
  = (last_section page Minimum (strong_elements page),
     last_section page Preferred (strong_elements page))
  /\ enrich_one web r
     = match web (row_link r) with
       | Ok shown =>
           Ok (last_section shown Minimum (strong_elements shown),
               last_section shown Preferred (strong_elements shown))
       | Raise e => Raise e
       end
  /\ (forall s, is_kind Minimum s && is_kind Preferred s = false)
  /\ fst (scan_headings Scenarios.two_minimum_headings)
     = section_of Scenarios.two_minimum_headings (2, "What we're looking for").
Proof.
  split; [apply scan_fold_last|].
  split.
  - unfold enrich_one, row_link. destruct (web (Zscaler.Link (job r))); auto.
    unfold scan_headings. now rewrite scan_fold_last.
  - split; [|reflexivity].
    intros s. unfold is_kind. destruct (classify (heading_text s)) as [[]|]; auto.
Qed.

(** C5 as stated fails: on a page with two headings of the minimum
    vocabulary the enricher writes the section of the second heading
    into the field, not that of the first. *)
Lemma C5_first_heading_is_overwritten :
  let out := extract_job_descriptions Scenarios.serves_two_minimum_headings
               Scenarios.one_row None in
  Minimum_Qualifications <$> result_df out = ["five years"]
  /\ first_section Scenarios.two_minimum_headings Minimum
       (strong_elements Scenarios.two_minimum_headings) = "a degree"
  /\ Minimum_Qualifications <$> result_df out
     <> [first_section Scenarios.two_minimum_headings Minimum
           (strong_elements Scenarios.two_minimum_headings)].
Proof.
  cbn zeta. split; [reflexivity|]. split; [reflexivity|].
  vm_compute. discriminate.
Qed.

(** The index loop is the recursion over the rows: rows already done are
    not touched again, rows beyond the range never. *)
Lemma enrich_range_rows (web : Web) (n : nat) (done rest : list Row)
    (visited : list string) :
  n <= length rest ->
  enrich_range web (seq (length done) n) (done ++ rest) visited =
  let '(rs, links, l) := enrich_rows web (take n rest) in
  {| result_df := done ++ rs ++ drop n rest;
     opened := visited ++ links;
     logged := l |}.
Proof.
  revert done rest visited.
  induction n as [|n IH]; intros done rest visited Hn.
  - simpl. now rewrite drop_0, app_nil_r.
  - destruct rest as [|r rest]; [simpl in Hn; lia|].
    simpl in Hn. cbn [seq enrich_range take enrich_rows].
    rewrite list_lookup_middle by reflexivity.
    change (Zscaler.Link (job r)) with (row_link r).
    destruct (enrich_one web r) as [q|e].
    + replace (<[length done:=set_qualifications r q]> (done ++ r :: rest))
        with ((done ++ [set_qualifications r q]) ++ rest).
      2:{ rewrite insert_app_r_alt by lia. rewrite Nat.sub_diag. simpl.
          now rewrite <- app_assoc. }
      replace (S (length done)) with (length (done ++ [set_qualifications r q])).
      2:{ rewrite length_app. simpl. lia. }
      rewrite IH by lia.
      destruct (enrich_rows web (take n rest)) as [[rs links] l].
      cbn [drop]. f_equal.
      * now rewrite <- app_assoc.
      * now rewrite <- app_assoc.
    + cbn [drop]. f_equal. simpl. now rewrite take_drop.
Qed.

Lemma extract_job_descriptions_rows (web : Web) (df : list Row)
    (max_jobs : option nat) :
  extract_job_descriptions web df max_jobs =
  let '(rs, links, l) := enrich_rows web (take (cap max_jobs df) df) in
  {| result_df := rs ++ drop (cap max_jobs df) df;
     opened := links;
     logged := l |}.
Proof.
  unfold extract_job_descriptions.
  assert (Hcap : cap max_jobs df <= length df).
  { unfold cap. destruct max_jobs; lia. }
  apply (enrich_range_rows web (cap max_jobs df) [] df [] Hcap).
Qed.

(** The rows up to the first failure are enriched, the failing row and
    those after it are left as they were, and no link after the failing
    one is opened. *)
Lemma enrich_rows_first_failure (web : Web) (rows : list Row) (i : nat)
    (r : Row) (e : exn) :
  rows !! i = Some r ->
  enrich_one web r = Raise e ->
  (forall j rj, j < i -> rows !! j = Some rj -> is_ok (enrich_one web rj) = true) ->
  enrich_rows web rows =
  ((enriched web <$> take i rows) ++ drop i rows,
   row_link <$> take (S i) rows,
   Some e).
Proof.
  revert rows. induction i as [|i IH]; intros rows Hi He Hbefore.
  - destruct rows as [|r0 rows]; [discriminate|].
    injection Hi as ->. simpl. now rewrite He.
  - destruct rows as [|r0 rows]; [discriminate|].
    simpl in Hi. cbn [enrich_rows].
    pose proof (Hbefore 0 r0 (Nat.lt_0_succ i) eq_refl) as H0.
    assert (Hr0 : exists q, enrich_one web r0 = Ok q
                            /\ enriched web r0 = set_qualifications r0 q).
    { unfold enriched. destruct (enrich_one web r0) as [q|e0];
        [eauto | discriminate]. }
    destruct Hr0 as (q & E0 & Hq). rewrite E0.
    rewrite (IH rows Hi He).
    + change (take (S i) (r0 :: rows)) with (r0 :: take i rows).
      change (take (S (S i)) (r0 :: rows)) with (r0 :: take (S i) rows).
      rewrite !fmap_cons, Hq. reflexivity.
    + intros j rj Hj Hrj. apply (Hbefore (S j) rj); [lia | exact Hrj].
Qed.

End Enricher.

(** C4, as amended. An exception raised while one record is enriched is
    caught and logged and the function returns the frame, but the loop
    ends there: when the record at position [i] below the cap is the
    first whose enrichment raises, the records before it carry their
    extracted fields, the record at [i] and every record after it are
    left as they were, and the links opened are those of the records up
    to [i] and no other. *)
Theorem C4_first_failure_ends_the_batch (web : Detail.Web)
    (df : list Detail.Row) (max_jobs : option nat) (i : nat) (r : Detail.Row)
    (e : exn) :
  i < Detail.cap max_jobs df ->
  df !! i = Some r ->
  Detail.enrich_one web r = Raise e ->
  (forall j rj, j < i -> df !! j = Some rj ->
     is_ok (Detail.enrich_one web rj) = true) ->
  let out := Detail.extract_job_descriptions web df max_jobs in
  Detail.logged out = Some e
  /\ Detail.opened out = Detail.row_link <$> take (S i) df
  /\ Detail.result_df out = (Detail.enriched web <$> take i df) ++ drop i df
  /\ (forall j, i <= j -> Detail.result_df out !! j = df !! j).
Proof.
  intros Hi Hr He Hbefore. cbn zeta.
  rewrite extract_job_descriptions_rows.
  rewrite (enrich_rows_first_failure web (take (Detail.cap max_jobs df) df) i r e).
  - cbn [Detail.logged Detail.opened Detail.result_df].
    rewrite !take_take.
    replace (i `min` Detail.cap max_jobs df) with i by lia.
    replace (S i `min` Detail.cap max_jobs df) with (S i) by lia.
    rewrite <- app_assoc, drop_take_drop by lia.
    split; [reflexivity|]. split; [reflexivity|]. split; [reflexivity|].
    intros j Hj.
    assert (Hlen : length (Detail.enriched web <$> take i df) = i).
    { rewrite length_fmap, length_take.
      apply lookup_lt_Some in Hr. lia. }
    rewrite lookup_app_r by lia. rewrite Hlen, lookup_drop.
    f_equal. lia.
  - rewrite lookup_take_lt by lia. exact Hr.
  - exact He.
  - intros j rj Hj Hrj. apply (Hbefore j rj Hj).
    rewrite lookup_take_lt in Hrj by lia. exact Hrj.
Qed.

(** The theorem on two records of which the first cannot be opened. *)
Lemma C4_first_failure_witness :
  let out := Detail.extract_job_descriptions Scenarios.first_page_fails
               Scenarios.two_rows None in
  Detail.logged out = Some WebDriverException
  /\ Detail.opened out = ["/job/1"]
  /\ Detail.result_df out = Scenarios.two_rows.
Proof.
  destruct (C4_first_failure_ends_the_batch Scenarios.first_page_fails
              Scenarios.two_rows None 0
              {| Detail.job := Scenarios.job_at "SWE II" "/job/1";
                 Detail.Minimum_Qualifications := EmptyString;
                 Detail.Preferred_Qualifications := EmptyString |}
              WebDriverException) as (Hlog & Hopen & Hdf & _).
  - simpl. lia.
  - reflexivity.
  - reflexivity.
  - intros j rj Hj. lia.
  - cbn zeta. split; [exact Hlog|]. split; [exact Hopen | exact Hdf].
Defined.

(** C4 as stated fails: the first of two records raises, and the second,
    whose page has both sections, is neither opened nor filled in. *)
Lemma C4_records_after_a_failure_are_skipped :
  let out := Detail.extract_job_descriptions Scenarios.first_page_fails
               Scenarios.two_rows None in
  Detail.enrich_one Scenarios.first_page_fails
    {| Detail.job := Scenarios.job_at "SWE II" "/job/1";
       Detail.Minimum_Qualifications := EmptyString;
       Detail.Preferred_Qualifications := EmptyString |}
  = Raise WebDriverException
  /\ Detail.scan_headings Scenarios.detail_page
     = ("p1" +:+ String "010" EmptyString +:+ "p2", "p3")
  /\ ~ ("/job/2" ∈ Detail.opened out)
  /\ Detail.Minimum_Qualifications <$> (Detail.result_df out !! 1)
     = Some EmptyString
  /\ Detail.Preferred_Qualifications <$> (Detail.result_df out !! 1)
     = Some EmptyString.
Proof.
  cbn zeta. split; [reflexivity|]. split; [reflexivity|].
  split; [|split; reflexivity].
  intros Hin. vm_compute in Hin. apply list_elem_of_singleton in Hin.
  discriminate.
Qed.

(** ** The Microsoft card extractor *)
Section CardFields.
Import PyStr Microsoft.

Lemma or_sentinel_truthy (value : option string) (sentinel : string) :
  truthy sentinel = true -> truthy (or_sentinel value sentinel) = true.
Proof.
  intros Hs. unfold or_sentinel.
  destruct value as [v|]; simpl; [|exact Hs].
  destruct (truthy v) eqn:Hv; [exact Hv | exact Hs].
Qed.

(** The value of a field is a text some selector found, trimmed and
    non-empty, or the sentinel. *)
Lemma try_selectors_value (find : string -> res string) (selectors : list string)
    (value : option string) :
  opt_truthy value = false ->
  opt_truthy (try_selectors find selectors value) = false
  \/ exists selector t, selector ∈ selectors /\ find selector = Ok t
       /\ try_selectors find selectors value = Some (strip t)
       /\ truthy (strip t) = true.
Proof.
  revert value. induction selectors as [|sel rest IH]; intros value Hv; simpl.
  - now left.
  - destruct (find sel) as [t|e] eqn:Hfind.
    + destruct (truthy (strip t)) eqn:Ht.
      * right. exists sel, t. repeat split; auto. apply elem_of_cons. now left.
      * destruct (IH (Some (strip t)) Ht) as [Hf|(s & t' & Hin & Hs & Hr & Htr)].
        -- now left.
        -- right. exists s, t'. repeat split; auto. apply elem_of_cons. now right.
    + destruct (IH value Hv) as [Hf|(s & t' & Hin & Hs & Hr & Htr)].
      * now left.
      * right. exists s, t'. repeat split; auto. apply elem_of_cons. now right.
Qed.

(** Title, location, date and company are never empty. *)
Lemma extract_card_text_fields (job_element : JobElement) :
  truthy (title (extract_card job_element)) = true
  /\ truthy (location (extract_card job_element)) = true
  /\ truthy (days_ago (extract_card job_element)) = true
  /\ company (extract_card job_element) = "Microsoft".
Proof.
  unfold extract_card; simpl.
  repeat split; apply or_sentinel_truthy; reflexivity.
Qed.

(** C2, at the input where the code departs from it. The text fields of
    a card are never empty, but the [url] of a card with no [<a>] and no
    [data-job-id] attribute is [None], as is that of a card whose [<a>]
    has no [href]: "Unknown URL" is assigned only when reading
    [data-job-id] raises.  On the Zscaler listing a blank department
    element gives an empty [Department]. *)
Theorem C2_url_is_left_without_sentinel :
  (forall job_element,
      truthy (title (extract_card job_element)) = true
      /\ truthy (location (extract_card job_element)) = true
      /\ truthy (days_ago (extract_card job_element)) = true
      /\ company (extract_card job_element) = "Microsoft")
  /\ extract_card Scenarios.bare_card
     = {| title := "Unknown Title"; location := "Unknown Location";
          days_ago := "Unknown Date"; company := "Microsoft"; url := None |}
  /\ url (extract_card Scenarios.card_without_href) = None
  /\ Zscaler.Department <$> Zscaler.extract_job_listings_zscaler
                              (Ok [Scenarios.blank_department_card])
     = [EmptyString].
Proof.
  split; [apply extract_card_text_fields|].
  split; [reflexivity|]. split; reflexivity.
Qed.

End CardFields.

(** ** The paginated strategy *)
Section Paginated.
Import PyStr Microsoft.

(** When the wait for a card container times out the navigation does not
    report success. *)
Lemma navigate_after_timeout (s : SearchSite) :
  results_wait s = Raise TimeoutException ->
  navigate_to_search_results s <> Ok true
  /\ (is_ok (driver_get s) = true -> navigate_to_search_results s = Ok false).
Proof.
  intros Hwait. unfold navigate_to_search_results. rewrite Hwait.
  destruct (driver_get s); [|split; [discriminate | discriminate]].
  destruct (keyword_input s); [|split; [discriminate | reflexivity]].
  destruct (search_button s); split; try discriminate; reflexivity.
Qed.

(** C8. When the wait for the first card container times out,
    [navigate_to_search_results] reports failure and [scrape_jobs]
    returns the empty list without raising and without a call of
    [extract_job_cards]; the driver is quit. *)
Theorem C8_listing_timeout_ends_with_no_results (s : SearchSite)
    (max_pages : nat) :
  results_wait s = Raise TimeoutException ->
  navigate_to_search_results s <> Ok true
  /\ (is_ok (driver_get s) = true -> navigate_to_search_results s = Ok false)
  /\ fst (scrape_jobs s max_pages) = Ok []
  /\ List.filter is_extraction (snd (scrape_jobs s max_pages)) = []
  /\ (is_ok (setup_driver s) = true -> EvQuit ∈ snd (scrape_jobs s max_pages)).
Proof.
  intros Hwait.
  destruct (navigate_after_timeout s Hwait) as [Hnot Hfalse].
  split; [exact Hnot|]. split; [exact Hfalse|].
  unfold scrape_jobs, scrape_try.
  destruct (setup_driver s) as [u|e]; simpl.
  - destruct (navigate_to_search_results s) as [[|]|e]; simpl.
    + contradiction.
    + repeat split. intros _. apply elem_of_cons. right.
      apply elem_of_cons. now left.
    + repeat split. intros _. apply elem_of_cons. right.
      apply elem_of_cons. now left.
  - repeat split. discriminate.
Qed.

End Paginated.

(** The theorem on a search whose results never show up. *)
Lemma C8_listing_timeout_witness :
  Microsoft.navigate_to_search_results Scenarios.results_time_out = Ok false
  /\ Microsoft.scrape_jobs Scenarios.results_time_out 3
     = (Ok [], [Microsoft.EvNavigate; Microsoft.EvQuit; Microsoft.EvQuit]).
Proof.
  destruct (C8_listing_timeout_ends_with_no_results Scenarios.results_time_out 3)
    as (_ & Hnav & _).
  - reflexivity.
  - split; [apply Hnav; reflexivity | reflexivity].
Defined.

(** ** The next-page control *)
Section NextPage.
Import PyStr Microsoft.
Variable controls : string -> res Control.
Variable arrives : bool.

(** A control with none of the three marks makes line 308 raise. *)
Lemma unmarked_raises (c : Control) :
  unmarked c = true -> disabled_check c = Raise TypeError.
Proof.
  unfold unmarked, disabled_check. intros H.
  apply andb_true_iff in H as [H Haria]. apply andb_true_iff in H as [Hd Hc].
  apply negb_true_iff in Hd, Hc. rewrite Hd, Hc.
  destruct (attr_aria_disabled c) as [a|]; [|reflexivity].
  exfalso. apply negb_true_iff, bool_decide_eq_false in Haria.
  apply Haria. eauto.
Qed.

(** Line 308 evaluates to false only on a control that carries an
    [aria-disabled] attribute. *)
Lemma disabled_check_false (c : Control) :
  disabled_check c = Ok false ->
  exists a, attr_aria_disabled c = Some a /\ contains "disabled" a = false.
Proof.
  unfold disabled_check.
  destruct (opt_truthy (attr_disabled c)); [discriminate|].
  destruct (contains "disabled" (attr_class c)); [discriminate|].
  destruct (attr_aria_disabled c) as [a|]; [|discriminate].
  intros [= H]. eauto.
Qed.

(** Every selector whose control was clicked has a control with an
    [aria-disabled] attribute. *)
Lemma try_next_clicked (selectors clicked : list string) (sel : string) :
  sel ∈ snd (try_next controls arrives selectors clicked) ->
  sel ∈ clicked
  \/ exists c a, controls sel = Ok c /\ attr_aria_disabled c = Some a.
Proof.
  revert clicked. induction selectors as [|s rest IH]; intros clicked; simpl.
  - now left.
  - destruct (controls s) as [c|e] eqn:Hc; [|apply IH].
    destruct (disabled_check c) as [[|]|e] eqn:Hd; [now left | | apply IH].
    apply disabled_check_false in Hd as (a & Ha & _).
    destruct (scroll_into_view c); [|apply IH].
    destruct (click c); simpl.
    + intros Hin. apply elem_of_app in Hin as [Hin|Hin]; [now left|].
      apply list_elem_of_singleton in Hin as ->. right. eauto.
    + intros Hin. apply IH in Hin as [Hin|Hin]; [|now right].
      apply elem_of_app in Hin as [Hin|Hin]; [now left|].
      apply list_elem_of_singleton in Hin as ->. right. eauto.
Qed.

(** The function reports a new page only after a click. *)
Lemma try_next_advances (selectors clicked : list string) :
  fst (try_next controls arrives selectors clicked) = true ->
  exists sel c a, sel ∈ selectors /\ controls sel = Ok c
    /\ attr_aria_disabled c = Some a /\ click c = Ok tt
    /\ sel ∈ snd (try_next controls arrives selectors clicked).
Proof.
  revert clicked. induction selectors as [|s rest IH]; intros clicked; simpl.
  - discriminate.
  - assert (Hrest : forall clicked',
              fst (try_next controls arrives rest clicked') = true ->
              exists sel c a, sel ∈ s :: rest /\ controls sel = Ok c
                /\ attr_aria_disabled c = Some a /\ click c = Ok tt
                /\ sel ∈ snd (try_next controls arrives rest clicked')).
    { intros clicked' H. destruct (IH clicked' H) as (sel & c & a & Hin & Hrest).
      exists sel, c, a. split; [apply elem_of_cons; now right | exact Hrest]. }
    destruct (controls s) as [c|e] eqn:Hc; [|apply Hrest].
    destruct (disabled_check c) as [[|]|e] eqn:Hd;
      [discriminate | | apply Hrest].
    apply disabled_check_false in Hd as (a & Ha & _).
    destruct (scroll_into_view c); [|apply Hrest].
    destruct (click c) as [[]|e] eqn:Hclick; simpl; [|apply Hrest].
    intros _. exists s, c, a. repeat split; auto.
    + apply elem_of_cons. now left.
    + apply elem_of_app. right. now apply list_elem_of_singleton.
Qed.

(** Selectors that time out or find an unmarked control are all skipped
    without a click. *)
Lemma try_next_exhausted (selectors clicked : list string) :
  (forall sel, sel ∈ selectors ->
     match controls sel with
     | Ok c => unmarked c = true
     | Raise _ => True
     end) ->
  try_next controls arrives selectors clicked = (false, clicked).
Proof.
  induction selectors as [|s rest IH]; intros Hall; simpl; [reflexivity|].
  assert (Hs := Hall s (proj2 (elem_of_cons _ _ _) (or_introl eq_refl))).
  assert (Hrest : try_next controls arrives rest clicked = (false, clicked)).
  { apply IH. intros sel Hin. apply Hall. apply elem_of_cons. now right. }
  destruct (controls s) as [c|e]; [|exact Hrest].
  now rewrite (unmarked_raises c Hs).
Qed.

End NextPage.

(** C9, as amended. A next-page control that has no truthy [disabled]
    attribute, no "disabled" in its class and no [aria-disabled]
    attribute makes the check of line 308 raise [TypeError]; the
    exception is absorbed, the selector is skipped and the control is
    not clicked.  So [go_to_next_page] clicks, and reports a new page,
    only through a control that carries an [aria-disabled] attribute, and
    when every selector times out or finds such an unmarked control it
    returns [False] without a click. *)
Theorem C9_unmarked_next_control_is_never_clicked (p : Microsoft.ResultsPage)
    (c : Microsoft.Control) :
  (Microsoft.unmarked c = true ->
   Microsoft.disabled_check c = Raise TypeError)
  /\ (forall sel, sel ∈ snd (Microsoft.go_to_next_page p) ->
        exists c' a, Microsoft.page_controls p sel = Ok c'
                     /\ Microsoft.attr_aria_disabled c' = Some a)
  /\ (forall sel c', Microsoft.page_controls p sel = Ok c' ->
        Microsoft.unmarked c' = true ->
        ~ sel ∈ snd (Microsoft.go_to_next_page p))
  /\ (fst (Microsoft.go_to_next_page p) = true ->
      exists sel c' a, sel ∈ Microsoft.next_selectors
        /\ Microsoft.page_controls p sel = Ok c'
        /\ Microsoft.attr_aria_disabled c' = Some a
        /\ sel ∈ snd (Microsoft.go_to_next_page p))
  /\ ((forall sel, sel ∈ Microsoft.next_selectors ->
         match Microsoft.page_controls p sel with
         | Ok c' => Microsoft.unmarked c' = true
         | Raise _ => True
         end) ->
      Microsoft.go_to_next_page p = (false, [])).
Proof.
  assert (Hclicked : forall sel, sel ∈ snd (Microsoft.go_to_next_page p) ->
            exists c' a, Microsoft.page_controls p sel = Ok c'
                         /\ Microsoft.attr_aria_disabled c' = Some a).
  { intros sel Hin. apply try_next_clicked in Hin as [Hin|Hin]; [|exact Hin].
    inversion Hin. }
  split; [apply unmarked_raises|].
  split; [exact Hclicked|].
  split.
  - intros sel c' Hc Hun Hin.
    destruct (Hclicked sel Hin) as (c'' & a & Hc' & Ha).
    rewrite Hc in Hc'. injection Hc' as <-.
    unfold Microsoft.unmarked in Hun. rewrite Ha in Hun.
    apply andb_true_iff in Hun as [_ Hun].
    apply negb_true_iff, bool_decide_eq_false in Hun. apply Hun. eauto.
  - split.
    + intros Htrue. apply try_next_advances in Htrue
        as (sel & c' & a & Hin & Hc & Ha & _ & Hcl).
      exists sel, c', a. auto.
    + apply try_next_exhausted.
Qed.

(** The theorem on a page whose two next-page controls are unmarked:
    the check raises on them and the function returns [False] with no
    click. *)
Lemma C9_unmarked_controls_witness :
  Microsoft.disabled_check Scenarios.plain_next = Raise TypeError
  /\ Microsoft.go_to_next_page
       (Scenarios.results_page Scenarios.plain_next Scenarios.plain_next)
     = (false, []).
Proof.
  destruct (C9_unmarked_next_control_is_never_clicked
              (Scenarios.results_page Scenarios.plain_next Scenarios.plain_next)
              Scenarios.plain_next) as (Hraise & _ & _ & _ & Hall).
  split; [apply Hraise; reflexivity|].
  apply Hall. intros sel Hin.
  repeat (apply elem_of_cons in Hin as [->|Hin]; [simpl; auto|]).
  inversion Hin.
Defined.

(** C9 as stated fails on an anchor that carries a [disabled] attribute,
    has no [aria-disabled] attribute and no "disabled" in its class: the
    check does not raise, it is true, and [go_to_next_page] returns
    [False] at once instead of going on to the next selector, which an
    unmarked control in the same place lets it do. *)
Lemma C9_disabled_attribute_short_circuits :
  Microsoft.attr_aria_disabled Scenarios.anchor_marked_disabled = None
  /\ PyStr.contains "disabled"
       (Microsoft.attr_class Scenarios.anchor_marked_disabled) = false
  /\ Microsoft.disabled_check Scenarios.anchor_marked_disabled = Ok true
  /\ Microsoft.disabled_check Scenarios.anchor_marked_disabled <> Raise TypeError
  /\ Microsoft.go_to_next_page
       (Scenarios.results_page Scenarios.anchor_marked_disabled
                               Scenarios.aria_enabled_next)
     = (false, [])
  /\ Microsoft.go_to_next_page
       (Scenarios.results_page Scenarios.plain_next Scenarios.aria_enabled_next)
     = (true, ["//button[contains(@class, 'next')]"]).
Proof.
  repeat split; try reflexivity. discriminate.
Qed.

(** * Further properties of the code *)

(** ** What the scroll loop returns *)
Section ScrollReturn.
Import Scroll.
Variable page : nat -> reading.
Variable h0 : Z.
Variable max_scrolls : nat.

(** A pass that breaks has read what the variables already held. *)
Lemma compare_and_count_repeat (r : reading) (st : state) :
  snd (compare_and_count r st) = true ->
  height r = last_height (fst (compare_and_count r st))
  /\ job_count r = last_job_count (fst (compare_and_count r st))
  /\ scrolls (fst (compare_and_count r st)) = scrolls st.
Proof.
  unfold compare_and_count.
  destruct ((height r =? last_height st)%Z
            && (job_count r =? last_job_count st)) eqn:E; [|discriminate].
  apply andb_true_iff in E as [Eh Ej].
  apply Z.eqb_eq in Eh. apply Nat.eqb_eq in Ej.
  destruct (3 <=? S (consecutive_no_change st)); [|discriminate].
  intros _. simpl. auto.
Qed.

Lemma scroll_loop_last_reading (fuel : nat) (st : state) :
  invariant page h0 st ->
  let out := scroll_loop fuel page max_scrolls st in
  last_height (fst out) = height (reading_at page h0 (reads out))
  /\ last_job_count (fst out) = job_count (reading_at page h0 (reads out)).
Proof.
  revert st. induction fuel as [|fuel IH]; intros st Hinv; cbn zeta.
  - simpl. unfold reads; simpl. rewrite Nat.add_0_r.
    destruct Hinv as (Hh & Hj & _). auto.
  - simpl. destruct (scrolls st <? max_scrolls).
    + pose proof (compare_and_count_invariant page h0 st Hinv) as Hstep.
      pose proof (compare_and_count_repeat (page (scrolls st)) st) as Hrep.
      cbn zeta in Hstep.
      destruct (compare_and_count (page (scrolls st)) st) as [st' stopped].
      simpl in Hstep, Hrep.
      destruct stopped.
      * destruct (Hrep eq_refl) as (Hh & Hj & Hs).
        unfold reads; cbn [fst snd]. rewrite Hs, Nat.add_1_r.
        unfold reading_at; cbn [previous]. auto.
      * destruct Hstep as [(Habs & _)|(_ & _ & Hinv')]; [discriminate|].
        apply IH. exact Hinv'.
    + unfold reads; simpl. rewrite Nat.add_0_r.
      destruct Hinv as (Hh & Hj & _). auto.
Qed.

End ScrollReturn.

(** X1. The count [scroll_to_load_all] returns, and the height it ends
    with, are those of the last read it made, whether the loop was left
    by the break or by the ceiling; with no read at all it returns 0. *)
Theorem scroll_returns_last_job_count (page : nat -> Scroll.reading) (h0 : Z)
    (max_scrolls : nat) :
  let out := Scroll.scroll_to_load_all page h0 max_scrolls in
  Scroll.last_job_count (fst out)
  = Scroll.job_count (Scroll.reading_at page h0 (Scroll.reads out))
  /\ Scroll.last_height (fst out)
     = Scroll.height (Scroll.reading_at page h0 (Scroll.reads out))
  /\ Scroll.last_job_count (fst (Scroll.scroll_to_load_all page h0 0)) = 0.
Proof.
  cbn zeta.
  destruct (scroll_loop_last_reading page h0 max_scrolls max_scrolls
              (Scroll.initial h0) (invariant_initial page h0)) as [Hh Hj].
  split; [exact Hj|]. split; [exact Hh | reflexivity].
Qed.

(** X2. On a page where every read differs from the one before, the
    break is never taken: the loop makes exactly [max_scrolls] reads and
    ends with the stall counter at 0. *)
Theorem scroll_runs_to_the_ceiling (page : nat -> Scroll.reading) (h0 : Z)
    (max_scrolls : nat) :
  (forall i, i < max_scrolls ->
     Scroll.same_reading (page i) (Scroll.previous page h0 i) = false) ->
  let out := Scroll.scroll_to_load_all page h0 max_scrolls in
  Scroll.reads out = max_scrolls /\ snd out = false
  /\ Scroll.scrolls (fst out) = max_scrolls
  /\ Scroll.consecutive_no_change (fst out) = 0.
Proof.
  intros Hdiff. cbn zeta.
  assert (Hzero : forall i, i <= max_scrolls -> Scroll.stall_count page h0 i = 0).
  { intros [|i] Hi; [reflexivity|]. simpl. rewrite Hdiff by lia. reflexivity. }
  destruct (scroll_to_load_all_halts page h0 max_scrolls) as (Hle & _ & Hend & Hc).
  destruct (snd (Scroll.scroll_to_load_all page h0 max_scrolls)) eqn:Hs.
  - rewrite Hzero in Hend by exact Hle. discriminate.
  - destruct Hend as [Hn _]. split; [exact Hn|]. split; [reflexivity|].
    split.
    + unfold Scroll.reads in Hn. rewrite Hs in Hn. lia.
    + rewrite Hc, Hzero; [reflexivity | lia].
Qed.

(** The theorem on a page that grows at every read, with a ceiling of 5
    scrolls. *)
Lemma scroll_runs_to_the_ceiling_witness :
  Scroll.reads (Scroll.scroll_to_load_all MoreScenarios.growing_page 0 5) = 5
  /\ snd (Scroll.scroll_to_load_all MoreScenarios.growing_page 0 5) = false.
Proof.
  destruct (scroll_runs_to_the_ceiling MoreScenarios.growing_page 0 5)
    as (Hr & Hs & _).
  - intros i Hi. do 5 (destruct i as [|i]; [reflexivity|]). lia.
  - split; [exact Hr | exact Hs].
Defined.

(** ** The records of one extraction pass *)
Section Records.
Import PyStr Zscaler Cards.

(** One card appends its record unless a record with the same title and
    link is there already. *)
Lemma card_step_record (jobs_data : list Job) (job : Opening) :
  card_step jobs_data job =
  match card_record job with
  | Some r => if is_duplicate jobs_data (Title r) (Link r) then jobs_data
              else jobs_data ++ [r]
  | None => jobs_data
  end.
Proof.
  unfold card_step, card_body, card_record, append_if_new.
  destruct (find_a job) as [a|e]; [|reflexivity].
  destruct (read_location job) as [loc|e]; [|reflexivity].
  destruct (a_href a) as [l|]; [|reflexivity].
  destruct (has_identity (strip (a_text a)) (Some l)); reflexivity.
Qed.

Lemma card_record_identity (job : Opening) :
  card_identity job = identity <$> card_record job.
Proof.
  unfold card_identity, card_record.
  destruct (find_a job) as [a|e]; [|reflexivity].
  destruct (read_location job) as [loc|e]; [|reflexivity].
  destruct (a_href a) as [l|]; [|reflexivity].
  destruct (has_identity (strip (a_text a)) (Some l)); reflexivity.
Qed.

Lemma read_location_value (job : Opening) (loc : string) :
  read_location job = Ok loc ->
  String.eqb loc "Not specified"
  || (truthy loc && (String.length loc <? 50)
      && negb (contains "footer" (lower loc))) = true.
Proof.
  unfold read_location. destruct (find_location job) as [t|[]]; try discriminate.
  - destruct (truthy (strip t) && (String.length (strip t) <? 50)
              && negb (contains "footer" (lower (strip t)))) eqn:E.
    + intros [= <-]. rewrite E. apply orb_true_r.
    + intros [= <-]. reflexivity.
  - intros [= <-]. reflexivity.
Qed.

Lemma card_record_well_formed (job : Opening) (r : Job) :
  card_record job = Some r -> well_formed r = true.
Proof.
  unfold card_record.
  destruct (find_a job) as [a|e]; [|discriminate].
  destruct (read_location job) as [loc|e] eqn:Hloc; [|discriminate].
  destruct (a_href a) as [l|]; [|discriminate].
  destruct (has_identity (strip (a_text a)) (Some l)) eqn:Hid; [|discriminate].
  intros [= <-]. unfold well_formed; simpl.
  unfold has_identity in Hid. simpl in Hid.
  apply andb_true_iff in Hid as [Hid Hl]. apply andb_true_iff in Hid as [Hid _].
  apply andb_true_iff in Hid as [_ Ht].
  rewrite Ht, Hl. simpl. now apply read_location_value in Hloc.
Qed.

Lemma fold_card_step_well_formed (cards : list Opening) (jobs_data : list Job) :
  Forall (fun r => well_formed r = true) jobs_data ->
  Forall (fun r => well_formed r = true) (fold_left card_step cards jobs_data).
Proof.
  revert jobs_data. induction cards as [|c cards IH]; intros jobs_data Hwf; simpl.
  - exact Hwf.
  - apply IH. rewrite card_step_record.
    destruct (card_record c) as [r|] eqn:Hr; [|exact Hwf].
    destruct (is_duplicate jobs_data (Title r) (Link r)); [exact Hwf|].
    apply Forall_app. split; [exact Hwf|].
    constructor; [|constructor]. now apply card_record_well_formed in Hr.
Qed.

(** The pass only ever appends to what it holds. *)
Lemma fold_card_step_prefix (cards : list Opening) (jobs_data : list Job) :
  exists tail, fold_left card_step cards jobs_data = jobs_data ++ tail.
Proof.
  revert jobs_data. induction cards as [|c cards IH]; intros jobs_data; simpl.
  - exists []. now rewrite app_nil_r.
  - destruct (IH (card_step jobs_data c)) as [tail ->].
    rewrite card_step_record.
    destruct (card_record c) as [r|]; [|eauto].
    destruct (is_duplicate jobs_data (Title r) (Link r)); [eauto|].
    exists ([r] ++ tail). now rewrite app_assoc.
Qed.

(** Every pair of the output was held before or comes from a card. *)
Lemma fold_card_step_origin (cards : list Opening) (jobs_data : list Job)
    (k : string * string) :
  k ∈ identity <$> fold_left card_step cards jobs_data ->
  k ∈ identity <$> jobs_data
  \/ exists c, c ∈ cards /\ card_identity c = Some k.
Proof.
  revert jobs_data. induction cards as [|c cards IH]; intros jobs_data; simpl.
  - now left.
  - intros Hk. apply IH in Hk as [Hk|(c' & Hin & Hc')].
    + destruct (card_step_cases jobs_data c) as [[Heq _]|(r & Heq & Hid & _)];
        rewrite Heq in Hk; [now left|].
      rewrite fmap_app in Hk. apply elem_of_app in Hk as [Hk|Hk]; [now left|].
      simpl in Hk. apply list_elem_of_singleton in Hk as ->.
      right. exists c. split; [apply elem_of_cons; now left | exact Hid].
    + right. exists c'. split; [apply elem_of_cons; now right | exact Hc'].
Qed.

(** Cards whose pairs are all held already change nothing. *)
Lemma fold_card_step_absorbed (cards : list Opening) (jobs_data : list Job) :
  (forall c k, c ∈ cards -> card_identity c = Some k ->
     k ∈ identity <$> jobs_data) ->
  fold_left card_step cards jobs_data = jobs_data.
Proof.
  induction cards as [|c cards IH]; intros Hall; simpl; [reflexivity|].
  assert (Hc : card_step jobs_data c = jobs_data).
  { destruct (card_step_cases jobs_data c) as [[Heq _]|(r & _ & Hid & Hdup)];
      [exact Heq|].
    assert (Hk : identity r ∈ identity <$> jobs_data).
    { apply (Hall c); [apply elem_of_cons; now left | exact Hid]. }
    apply is_duplicate_identity in Hk. congruence. }
  rewrite Hc. apply IH. intros c' k Hin. apply Hall. apply elem_of_cons. now right.
Qed.

Lemma identity_unique (jobs_data : list Job) (r r' : Job) :
  NoDup (identity <$> jobs_data) -> r ∈ jobs_data -> r' ∈ jobs_data ->
  identity r = identity r' -> r = r'.
Proof.
  induction jobs_data as [|x l IH]; intros Hnd Hr Hr' Hid; [inversion Hr|].
  rewrite fmap_cons in Hnd. apply NoDup_cons in Hnd as [Hx Hnd].
  apply elem_of_cons in Hr as [->|Hr]; apply elem_of_cons in Hr' as [->|Hr'].
  - reflexivity.
  - exfalso. apply Hx. rewrite Hid. apply list_elem_of_fmap. eauto.
  - exfalso. apply Hx. rewrite <- Hid. apply list_elem_of_fmap. eauto.
  - now apply IH.
Qed.

Lemma fold_card_step_sublist (cards : list Opening) (jobs_data : list Job) :
  exists ks, identity <$> fold_left card_step cards jobs_data
             = (identity <$> jobs_data) ++ ks
             /\ ks `sublist_of` omap card_identity cards.
Proof.
  revert jobs_data. induction cards as [|c cards IH]; intros jobs_data; simpl.
  - exists []. split; [now rewrite app_nil_r | constructor].
  - destruct (IH (card_step jobs_data c)) as (ks & Heq & Hsub). rewrite Heq.
    destruct (card_step_cases jobs_data c) as [[-> _]|(r & -> & Hid & _)].
    + exists ks. split; [reflexivity|].
      destruct (card_identity c); [now apply sublist_cons | exact Hsub].
    + exists (identity r :: ks). split.
      * rewrite fmap_app, <- app_assoc. reflexivity.
      * rewrite Hid. now apply sublist_skip.
Qed.

End Records.

(** X3. Every record an extraction pass returns has a title and a link
    that are not blank, and a location that is "Not specified" or a
    non-empty text of fewer than 50 characters without "footer". *)
Theorem extracted_records_are_well_formed
    (openings : res (list Zscaler.Opening)) :
  Forall (fun r =>
            PyStr.truthy (PyStr.strip (Zscaler.Title r)) = true
            /\ PyStr.truthy (PyStr.strip (Zscaler.Link r)) = true
            /\ (Zscaler.Location r = "Not specified"
                \/ (Zscaler.Location r <> EmptyString
                    /\ String.length (Zscaler.Location r) < 50
                    /\ PyStr.contains "footer"
                         (PyStr.lower (Zscaler.Location r)) = false)))
         (Zscaler.extract_job_listings_zscaler openings).
Proof.
  assert (Hwf : Forall (fun r => Cards.well_formed r = true)
                  (Zscaler.extract_job_listings_zscaler openings)).
  { destruct openings as [cards|e]; simpl; [|constructor].
    apply fold_card_step_well_formed. constructor. }
  eapply Forall_impl; [exact Hwf|].
  intros r H. unfold Cards.well_formed in H.
  apply andb_true_iff in H as [H Hloc]. apply andb_true_iff in H as [Ht Hl].
  split; [exact Ht|]. split; [exact Hl|].
  apply orb_true_iff in Hloc as [Hloc|Hloc].
  - left. now apply String.eqb_eq.
  - right. apply andb_true_iff in Hloc as [Hloc Hfoot].
    apply andb_true_iff in Hloc as [Hne Hlen].
    split.
    + intros Heq. rewrite Heq in Hne. discriminate.
    + split; [now apply Nat.ltb_lt | now apply negb_true_iff].
Qed.

(** X4. First seen wins: the record of the first card of a pass that
    carries a given (title, link) pair is in the output, and it is the
    only record of the output with that pair, whatever later cards with
    the same pair hold in their other fields. *)
Theorem first_card_of_a_pair_is_kept
    (pre post : list Zscaler.Opening) (c : Zscaler.Opening) (r : Zscaler.Job) :
  Cards.card_record c = Some r ->
  (forall c', c' ∈ pre ->
     Zscaler.card_identity c' <> Some (Zscaler.identity r)) ->
  let out := Zscaler.extract_job_listings_zscaler (Ok (pre ++ c :: post)) in
  r ∈ out
  /\ forall r', r' ∈ out -> Zscaler.identity r' = Zscaler.identity r -> r' = r.
Proof.
  intros Hr Hpre. cbn zeta.
  assert (Hin : r ∈ Zscaler.extract_job_listings_zscaler (Ok (pre ++ c :: post))).
  { simpl. rewrite fold_left_app. simpl.
    set (acc := fold_left Zscaler.card_step pre []).
    destruct (fold_card_step_prefix post (Zscaler.card_step acc c)) as [tail ->].
    apply elem_of_app. left.
    rewrite card_step_record, Hr.
    destruct (Zscaler.is_duplicate acc (Zscaler.Title r) (Zscaler.Link r)) eqn:Hdup.
    - exfalso. apply is_duplicate_identity in Hdup.
      apply fold_card_step_origin in Hdup as [Hnil|(c' & Hc' & Hid)].
      + inversion Hnil.
      + now apply (Hpre c' Hc').
    - apply elem_of_app. right. now apply list_elem_of_singleton. }
  split; [exact Hin|].
  intros r' Hr' Hid.
  apply (identity_unique _ r' r (extract_NoDup _) Hr' Hin Hid).
Qed.

(** The theorem on "SWE II" seen twice, the second time with another
    location: the record with "Not specified" is the one kept. *)
Lemma first_card_of_a_pair_witness :
  Scenarios.job_at "SWE II" "/job/1"
  ∈ Zscaler.extract_job_listings_zscaler
      (Ok ([] ++ Scenarios.card "SWE II" "/job/1"
               :: [MoreScenarios.relocated_card]))
  /\ Zscaler.Location
       <$> Zscaler.extract_job_listings_zscaler
             (Ok [Scenarios.card "SWE II" "/job/1"; MoreScenarios.relocated_card])
     = ["Not specified"].
Proof.
  split; [|reflexivity].
  apply (first_card_of_a_pair_is_kept [] [MoreScenarios.relocated_card]
           (Scenarios.card "SWE II" "/job/1")
           (Scenarios.job_at "SWE II" "/job/1")).
  - reflexivity.
  - intros c' Hc'. inversion Hc'.
Defined.

(** X5. Order is kept: the (title, link) pairs of the records of a pass
    come in the order of the cards they were read from. *)
Theorem extraction_keeps_card_order (cards : list Zscaler.Opening) :
  (Zscaler.identity <$> Zscaler.extract_job_listings_zscaler (Ok cards))
    `sublist_of` omap Zscaler.card_identity cards.
Proof.
  simpl. destruct (fold_card_step_sublist cards []) as (ks & -> & Hsub).
  exact Hsub.
Qed.

(** X6. Running the cards of a pass through it a second time adds
    nothing: the pass over a list followed by itself returns what the
    pass over the list returns. *)
Theorem extraction_is_idempotent (cards : list Zscaler.Opening) :
  Zscaler.extract_job_listings_zscaler (Ok (cards ++ cards))
  = Zscaler.extract_job_listings_zscaler (Ok cards).
Proof.
  simpl. rewrite fold_left_app. apply fold_card_step_absorbed.
  intros c k Hc Hk. now apply (fold_card_step_records cards [] c k).
Qed.

Lemma fold_card_step_length (cards : list Zscaler.Opening)
    (jobs_data : list Zscaler.Job) :
  length (fold_left Zscaler.card_step cards jobs_data)
  <= length jobs_data + length cards.
Proof.
  revert jobs_data. induction cards as [|c cards IH]; intros jobs_data; simpl.
  - lia.
  - etransitivity; [apply IH|]. rewrite card_step_record.
    destruct (Cards.card_record c) as [r|]; [|lia].
    destruct (Zscaler.is_duplicate jobs_data (Zscaler.Title r) (Zscaler.Link r));
      [lia|]. rewrite length_app. simpl. lia.
Qed.

(** X7. A card that raises while it is read, or that has a blank title
    or no link, is skipped without a trace: the pass returns what it
    returns without that card.  A pass returns at most one record per
    card, and none when the cards cannot be listed. *)
Theorem skipped_card_leaves_the_others
    (pre post : list Zscaler.Opening) (c : Zscaler.Opening) :
  Cards.card_record c = None ->
  Zscaler.extract_job_listings_zscaler (Ok (pre ++ c :: post))
  = Zscaler.extract_job_listings_zscaler (Ok (pre ++ post))
  /\ length (Zscaler.extract_job_listings_zscaler (Ok (pre ++ c :: post)))
     <= length (pre ++ post)
  /\ forall e, Zscaler.extract_job_listings_zscaler (Raise e) = [].
Proof.
  intros Hc.
  assert (Heq : Zscaler.extract_job_listings_zscaler (Ok (pre ++ c :: post))
                = Zscaler.extract_job_listings_zscaler (Ok (pre ++ post))).
  { simpl. rewrite !fold_left_app. simpl. now rewrite card_step_record, Hc. }
  split; [exact Heq|]. split; [|reflexivity].
  rewrite Heq. simpl.
  apply (fold_card_step_length (pre ++ post) []).
Qed.

(** The theorem on a pass whose second card is stale. *)
Lemma skipped_card_witness :
  Zscaler.extract_job_listings_zscaler
    (Ok ([Scenarios.card "SWE II" "/job/1"]
           ++ MoreScenarios.stale_card :: [Scenarios.card "Job 2" "/job/2"]))
  = Zscaler.extract_job_listings_zscaler
      (Ok ([Scenarios.card "SWE II" "/job/1"] ++ [Scenarios.card "Job 2" "/job/2"])).
Proof.
  apply (skipped_card_leaves_the_others [Scenarios.card "SWE II" "/job/1"]
           [Scenarios.card "Job 2" "/job/2"] MoreScenarios.stale_card).
  reflexivity.
Defined.

(** ** The pagination of the Zscaler board *)
Section Pagination.
Import PyStr Zscaler.

Lemma visited_length (n : nat) (site : Site) : length (visited n site) <= n.
Proof.
  revert site. induction n as [|n IH]; intros site; simpl; [lia|].
  destruct (find_next_button (site_buttons site)); [|simpl; lia].
  destruct (after_click site) as [next|]; [|simpl; lia].
  specialize (IH next). lia.
Qed.

(** The pages the pagination extracts are the first pages of the board,
    no more of them than it may make passes. *)
Lemma visited_first_pages (n : nat) (site : Site) :
  exists k, k <= n /\ visited n site = take k (site_pages site).
Proof.
  revert site. induction n as [|n IH]; intros site.
  - exists 0. split; [lia | reflexivity].
  - cbn [visited].
    destruct (find_next_button (site_buttons site)) as [b|].
    + destruct site as [o bs next|o bs]; cbn [after_click site_openings site_pages].
      * destruct (IH next) as (k & Hk & ->).
        exists (S k). split; [lia | reflexivity].
      * exists 1. split; [lia | reflexivity].
    + exists 1. split; [lia|].
      destruct site as [o bs next|o bs]; reflexivity.
Qed.

(** The search of lines 178-181 returns the first button, in order, that
    is displayed and not of a disabled class, provided no button before
    it raised. *)
Lemma first_enabled_some (next_buttons : list NextButton) (b : NextButton) :
  first_enabled next_buttons = Ok (Some b) ->
  exists pre post, next_buttons = pre ++ b :: post
    /\ is_displayed b = Ok true
    /\ contains "disabled" (button_class b) = false
    /\ Forall (fun x => is_displayed x = Ok false
                        \/ (is_displayed x = Ok true
                            /\ contains "disabled" (button_class x) = true)) pre.
Proof.
  induction next_buttons as [|x l IH]; simpl; [discriminate|].
  destruct (is_displayed x) as [shown|e] eqn:Hx; [|discriminate].
  destruct (shown && negb (contains "disabled" (button_class x))) eqn:E.
  - intros [= <-]. apply andb_true_iff in E as [-> E].
    apply negb_true_iff in E. exists [], l. repeat split; auto.
  - intros H. destruct (IH H) as (pre & post & -> & Hd & Hc & Hpre).
    exists (x :: pre), post. repeat split; auto. constructor; [|exact Hpre].
    destruct shown; [right | now left].
    simpl in E. apply negb_false_iff in E. auto.
Qed.

End Pagination.

(** X8. [handle_pagination] returns the records of the first [k] pages
    of the board, one pass after the other, for some [k] that is at
    most [max_pages]: none for [max_pages = 0], and only the first page
    for [max_pages = 1] even when a usable next link is there.  When the
    first page shows no usable next button, or the click on it raises,
    it returns exactly the records of that page. *)
Theorem pagination_is_bounded (site : Zscaler.Site) (max_pages : nat) :
  (exists k, k <= max_pages
     /\ Zscaler.handle_pagination site max_pages
        = concat (map Zscaler.extract_job_listings_zscaler
                      (take k (Zscaler.site_pages site))))
  /\ Zscaler.handle_pagination site 0 = []
  /\ Zscaler.handle_pagination site 1
     = Zscaler.extract_job_listings_zscaler (Zscaler.site_openings site)
  /\ (Zscaler.find_next_button (Zscaler.site_buttons site) = None
      \/ Zscaler.after_click site = None ->
      Zscaler.handle_pagination site (S max_pages)
      = Zscaler.extract_job_listings_zscaler (Zscaler.site_openings site)).
Proof.
  split.
  - destruct (visited_first_pages max_pages site) as (k & Hk & Hv).
    exists k. split; [exact Hk|]. now rewrite handle_pagination_visited, Hv.
  - split; [reflexivity|]. split.
    + rewrite handle_pagination_visited. simpl.
      destruct (Zscaler.find_next_button (Zscaler.site_buttons site));
        [destruct (Zscaler.after_click site)|]; simpl; now rewrite app_nil_r.
    + intros Hlast. rewrite handle_pagination_visited. simpl.
      destruct Hlast as [-> | ->].
      * simpl. now rewrite app_nil_r.
      * destruct (Zscaler.find_next_button (Zscaler.site_buttons site));
          simpl; now rewrite app_nil_r.
Qed.

(** The theorem on a page without next link, and the ceiling of one
    page on the 2-page listing. *)
Lemma pagination_is_bounded_witness :
  Zscaler.handle_pagination
    (Zscaler.DeadEnd (Ok Scenarios.second_page) (Ok [])) 3
  = Zscaler.extract_job_listings_zscaler (Ok Scenarios.second_page)
  /\ length (Zscaler.handle_pagination Scenarios.two_page_site 1) = 10.
Proof.
  split.
  - destruct (pagination_is_bounded
                (Zscaler.DeadEnd (Ok Scenarios.second_page) (Ok [])) 2)
      as (_ & _ & _ & Hlast).
    apply Hlast. left. reflexivity.
  - destruct (pagination_is_bounded Scenarios.two_page_site 1)
      as (_ & _ & Hone & _).
    rewrite Hone. reflexivity.
Defined.

(** X9. The next button the pagination clicks is the first link, in
    document order, that is displayed and whose class does not contain
    "disabled": every link before it is hidden or of a disabled class,
    and none of them raised. *)
Theorem next_button_is_first_usable
    (next_buttons : res (list Zscaler.NextButton)) (b : Zscaler.NextButton) :
  Zscaler.find_next_button next_buttons = Some b ->
  exists pre post, next_buttons = Ok (pre ++ b :: post)
    /\ Zscaler.is_displayed b = Ok true
    /\ PyStr.contains "disabled" (Zscaler.button_class b) = false
    /\ Forall (fun x => Zscaler.is_displayed x = Ok false
                        \/ (Zscaler.is_displayed x = Ok true
                            /\ PyStr.contains "disabled"
                                 (Zscaler.button_class x) = true)) pre.
Proof.
  unfold Zscaler.find_next_button.
  destruct next_buttons as [l|e]; [|discriminate].
  destruct (Zscaler.first_enabled l) as [[b'|]|e] eqn:E; try discriminate.
  intros [= ->]. apply first_enabled_some in E as (pre & post & -> & H).
  exists pre, post. split; [reflexivity | exact H].
Qed.

(** The theorem on a hidden link, a disabled one and a usable one. *)
Lemma next_button_is_first_usable_witness :
  exists pre post,
    Ok [MoreScenarios.hidden_link; MoreScenarios.disabled_link;
        Scenarios.next_link]
    = Ok (pre ++ Scenarios.next_link :: post)
    /\ Zscaler.is_displayed Scenarios.next_link = Ok true
    /\ PyStr.contains "disabled" (Zscaler.button_class Scenarios.next_link) = false
    /\ Forall (fun x => Zscaler.is_displayed x = Ok false
                        \/ (Zscaler.is_displayed x = Ok true
                            /\ PyStr.contains "disabled"
                                 (Zscaler.button_class x) = true)) pre.
Proof.
  apply (next_button_is_first_usable
           (Ok [MoreScenarios.hidden_link; MoreScenarios.disabled_link;
                Scenarios.next_link]) Scenarios.next_link).
  reflexivity.
Defined.

(** X10. Without a keyword [scrape_zscaler_jobs] never uses the search
    box and filters nothing: it returns what the pagination collected on
    the listing as loaded, and the empty list when the driver, the page
    load, the wait (other than by timing out) or a browser call of the
    scroll fails.  With a keyword, a search box that fails otherwise
    than by being absent gives the empty list. *)
Theorem scrape_without_keyword (max_pages : nat) (s : Zscaler.Session) :
  Zscaler.scrape_zscaler_jobs EmptyString max_pages s
  = (if Zscaler.reaches_search s && Zscaler.scrolls_through (Zscaler.listing s)
     then Zscaler.handle_pagination (Zscaler.board (Zscaler.listing s)) max_pages
     else [])
  /\ forall search_keyword e,
       search_keyword <> EmptyString ->
       Zscaler.search s = Raise e -> e <> NoSuchElementException ->
       Zscaler.scrape_zscaler_jobs search_keyword max_pages s = [].
Proof.
  split.
  - unfold Zscaler.scrape_zscaler_jobs, Zscaler.scrape_body,
      Zscaler.reaches_search, Zscaler.scrolls_through.
    destruct (Zscaler.start_driver s); [|reflexivity].
    destruct (Zscaler.open_board s); [|reflexivity].
    destruct (Zscaler.wait_openings s) as [?|[]]; try reflexivity;
      cbn [PyStr.truthy String.eqb negb is_ok andb];
      destruct (Zscaler.scroll_listing (Zscaler.listing s)); reflexivity.
  - intros kw e Hkw Hs He. apply truthy_nonempty in Hkw.
    rewrite (scrape_with_keyword kw max_pages s Hkw), Hs.
    destruct (Zscaler.reaches_search s); [|reflexivity].
    destruct e; try reflexivity. contradiction.
Qed.

(** The theorem on a session whose search box goes stale, and on one
    whose scroll raises at the third pass. *)
Lemma scrape_without_keyword_witness :
  Zscaler.scrape_zscaler_jobs "job" 3
    {| Zscaler.start_driver := Ok tt; Zscaler.open_board := Ok tt;
       Zscaler.wait_openings := Ok tt;
       Zscaler.listing := Zscaler.listing Scenarios.session_without_search_box;
       Zscaler.search := Raise StaleElementReferenceException |}
  = []
  /\ Zscaler.scrape_zscaler_jobs EmptyString 3
       {| Zscaler.start_driver := Ok tt; Zscaler.open_board := Ok tt;
          Zscaler.wait_openings := Ok tt;
          Zscaler.listing := MoreScenarios.scroll_breaks;
          Zscaler.search := Raise NoSuchElementException |}
     = []
  /\ length (Zscaler.scrape_zscaler_jobs EmptyString 3
                Scenarios.session_without_search_box) = 14.
Proof.
  split; [|split].
  - destruct (scrape_without_keyword 3
      {| Zscaler.start_driver := Ok tt; Zscaler.open_board := Ok tt;
         Zscaler.wait_openings := Ok tt;
         Zscaler.listing := Zscaler.listing Scenarios.session_without_search_box;
         Zscaler.search := Raise StaleElementReferenceException |}) as [_ H].
    apply (H "job" StaleElementReferenceException);
      [discriminate | reflexivity | discriminate].
  - destruct (scrape_without_keyword 3
      {| Zscaler.start_driver := Ok tt; Zscaler.open_board := Ok tt;
         Zscaler.wait_openings := Ok tt;
         Zscaler.listing := MoreScenarios.scroll_breaks;
         Zscaler.search := Raise NoSuchElementException |}) as [H _].
    rewrite H. reflexivity.
  - destruct (scrape_without_keyword 3 Scenarios.session_without_search_box)
      as [H _].
    rewrite H. reflexivity.
Defined.

(** ** The frame the enrichment returns *)
Section Frame.
Import PyStr Detail.
Variable web : Web.

Lemma enrich_rows_shape (rows : list Row) :
  job <$> (enrich_rows web rows).1.1 = job <$> rows
  /\ (enrich_rows web rows).1.2 `prefix_of` row_link <$> rows.
Proof.
  induction rows as [|r rows [IHj IHl]]; simpl.
  - split; [reflexivity | apply prefix_nil].
  - destruct (enrich_one web r) as [q|e]; simpl.
    + destruct (enrich_rows web rows) as [[rs links] l].
      cbn [fst snd] in *. rewrite !fmap_cons. split.
      * cbn [job set_qualifications]. f_equal. exact IHj.
      * now apply prefix_cons.
    + split; [reflexivity|]. exists (row_link <$> rows). reflexivity.
Qed.

Lemma enrich_rows_all_ok (rows : list Row) :
  Forall (fun r => is_ok (enrich_one web r) = true) rows ->
  enrich_rows web rows = (enriched web <$> rows, row_link <$> rows, None).
Proof.
  induction 1 as [|r rows Hr Hrows IH]; simpl; [reflexivity|].
  unfold enriched at 1.
  destruct (enrich_one web r) as [q|e]; [|discriminate].
  now rewrite IH.
Qed.

Lemma cap_le (max_jobs : option nat) (df : list Row) :
  cap max_jobs df <= length df.
Proof. unfold cap. destruct max_jobs; lia. Qed.

End Frame.

(** X11. [extract_job_descriptions] only ever writes the two
    qualification columns: the frame it returns has the rows of the
    frame it was given, in order, with title, location, department and
    link unchanged, whatever the pages answer. *)
Theorem enrichment_keeps_the_records (web : Detail.Web) (df : list Detail.Row)
    (max_jobs : option nat) :
  Detail.job <$> Detail.result_df (Detail.extract_job_descriptions web df max_jobs)
  = Detail.job <$> df
  /\ length (Detail.result_df (Detail.extract_job_descriptions web df max_jobs))
     = length df.
Proof.
  assert (H : Detail.job <$> Detail.result_df
                (Detail.extract_job_descriptions web df max_jobs)
              = Detail.job <$> df).
  { rewrite extract_job_descriptions_rows.
    pose proof (enrich_rows_shape web (take (Detail.cap max_jobs df) df)) as [Hj _].
    destruct (Detail.enrich_rows web (take (Detail.cap max_jobs df) df))
      as [[rs links] l]. simpl in *.
    now rewrite fmap_app, Hj, <- fmap_app, take_drop. }
  split; [exact H|].
  apply (f_equal length) in H. now rewrite !length_fmap in H.
Qed.

(** X12. The cap is a hard limit: rows at and beyond
    [min(max_jobs, len(df))] are returned as they were, the links opened
    are the links of the first rows in order, at most that many, and
    with a cap of 0 nothing is opened and nothing changes. *)
Theorem enrichment_stops_at_the_cap (web : Detail.Web) (df : list Detail.Row)
    (max_jobs : option nat) :
  let out := Detail.extract_job_descriptions web df max_jobs in
  drop (Detail.cap max_jobs df) (Detail.result_df out)
  = drop (Detail.cap max_jobs df) df
  /\ Detail.opened out
     `prefix_of` Detail.row_link <$> take (Detail.cap max_jobs df) df
  /\ length (Detail.opened out) <= Detail.cap max_jobs df
  /\ Detail.extract_job_descriptions web df (Some 0)
     = {| Detail.result_df := df; Detail.opened := []; Detail.logged := None |}.
Proof.
  cbn zeta. rewrite extract_job_descriptions_rows.
  pose proof (enrich_rows_shape web (take (Detail.cap max_jobs df) df)) as [Hj Hl].
  pose proof (cap_le max_jobs df) as Hcap.
  destruct (Detail.enrich_rows web (take (Detail.cap max_jobs df) df))
    as [[rs links] l]. simpl in *.
  assert (Hlen : length rs = Detail.cap max_jobs df).
  { apply (f_equal length) in Hj. rewrite !length_fmap, length_take in Hj. lia. }
  split.
  - rewrite drop_app_length'; [reflexivity | now symmetry].
  - split; [exact Hl|]. split; [|reflexivity].
    apply prefix_length in Hl. rewrite length_fmap, length_take in Hl. lia.
Qed.

(** X13. When every page below the cap is read without an exception,
    nothing is logged, the links of exactly the first
    [min(max_jobs, len(df))] rows are opened, in order, and each of these
    rows carries the two sections its page gives. *)
Theorem enrichment_without_failure (web : Detail.Web) (df : list Detail.Row)
    (max_jobs : option nat) :
  Forall (fun r => is_ok (Detail.enrich_one web r) = true)
         (take (Detail.cap max_jobs df) df) ->
  Detail.extract_job_descriptions web df max_jobs
  = {| Detail.result_df :=
         (Detail.enriched web <$> take (Detail.cap max_jobs df) df)
           ++ drop (Detail.cap max_jobs df) df;
       Detail.opened := Detail.row_link <$> take (Detail.cap max_jobs df) df;
       Detail.logged := None |}.
Proof.
  intros Hok. rewrite extract_job_descriptions_rows.
  now rewrite (enrich_rows_all_ok web _ Hok).
Qed.

(** The theorem on two records with a cap of 1: the first is filled in,
    the second is not opened. *)
Lemma enrichment_without_failure_witness :
  let out := Detail.extract_job_descriptions MoreScenarios.serves_detail_page
               Scenarios.two_rows (Some 1) in
  Detail.opened out = ["/job/1"]
  /\ Detail.Preferred_Qualifications <$> Detail.result_df out
     = ["p3"; EmptyString]
  /\ Detail.logged out = None.
Proof.
  cbn zeta.
  rewrite (enrichment_without_failure MoreScenarios.serves_detail_page
             Scenarios.two_rows (Some 1)).
  - repeat split.
  - repeat constructor.
Defined.

(** ** Headings and fragments *)
Section Headings.
Import PyStr Detail.

Lemma scan_fold_unmarked (page : list Block) (headings : list (nat * string))
    (acc : string * string) :
  Forall (fun strong => classify (heading_text strong) = None) headings ->
  fold_left (scan_step page) headings acc = acc.
Proof.
  intros H. revert acc. induction H as [|s l Hs Hl IH]; intros acc; simpl.
  - reflexivity.
  - unfold scan_step at 2. rewrite Hs. apply IH.
Qed.

(** A sibling with blank text that is no boundary does not show in the
    section. *)
Lemma before_boundary_blank (pre post : list Block) (b : Block) :
  strip (text b) = EmptyString ->
  is_terminating_heading b || is_content_nav b = false ->
  List.filter truthy
    (map (fun x => strip (text x)) (before_boundary (pre ++ b :: post)))
  = List.filter truthy
      (map (fun x => strip (text x)) (before_boundary (pre ++ post))).
Proof.
  intros Hblank Hb. rewrite is_content_nav_container in Hb.
  induction pre as [|x pre IH]; simpl.
  - rewrite Hb. simpl. now rewrite Hblank.
  - destruct (is_terminating_heading x || is_navigation_container x);
      [reflexivity|].
    simpl. now rewrite IH.
Qed.

End Headings.

(** X14. A detail page none of whose [<strong>] texts contains one of
    the four markers gives two empty qualification fields: the row is
    written back with both fields empty, whatever they held, and with
    the record itself unchanged. *)
Theorem page_without_markers_gives_empty_fields (web : Detail.Web)
    (r : Detail.Row) (page : list Detail.Block) :
  web (Detail.row_link r) = Ok page ->
  Forall (fun strong => Detail.classify (Detail.heading_text strong) = None)
         (Detail.strong_elements page) ->
  Detail.scan_headings page = (EmptyString, EmptyString)
  /\ Detail.enriched web r
     = {| Detail.job := Detail.job r;
          Detail.Minimum_Qualifications := EmptyString;
          Detail.Preferred_Qualifications := EmptyString |}.
Proof.
  intros Hweb Hnone.
  assert (Hscan : Detail.scan_headings page = (EmptyString, EmptyString)).
  { unfold Detail.scan_headings. now apply scan_fold_unmarked. }
  split; [exact Hscan|].
  unfold Detail.enriched, Detail.enrich_one. unfold Detail.row_link in Hweb.
  rewrite Hweb, Hscan. reflexivity.
Qed.

(** The theorem on a page with the headings "About the team" and
    "Benefits". *)
Lemma page_without_markers_witness :
  Detail.scan_headings MoreScenarios.page_without_markers
  = (EmptyString, EmptyString).
Proof.
  apply (page_without_markers_gives_empty_fields
           (fun _ => Ok MoreScenarios.page_without_markers)
           {| Detail.job := Scenarios.job_at "SWE II" "/job/1";
              Detail.Minimum_Qualifications := "old";
              Detail.Preferred_Qualifications := "old" |}
           MoreScenarios.page_without_markers).
  - reflexivity.
  - repeat constructor.
Defined.

(** X15. Empty fragments are dropped: a sibling whose text is blank, and
    that is neither a terminating heading nor a navigation container,
    leaves the section text as if it were not there; and a heading with
    no sibling after its block has the empty section. *)
Theorem blank_sibling_is_omitted (pre post : list Detail.Block)
    (b : Detail.Block) :
  PyStr.strip (Detail.text b) = EmptyString ->
  Detail.is_terminating_heading b || Detail.is_content_nav b = false ->
  Detail.get_section_text (pre ++ b :: post)
  = Detail.get_section_text (pre ++ post)
  /\ Detail.get_section_text [] = EmptyString.
Proof.
  intros Hblank Hb. split; [|reflexivity].
  rewrite !get_section_text_spec. unfold Detail.section_text_spec.
  now rewrite (before_boundary_blank pre post b Hblank Hb).
Qed.

(** The theorem on the section "p1", blank, "p2". *)
Lemma blank_sibling_witness :
  Detail.get_section_text
    ([Scenarios.para "p1"] ++ Scenarios.para "  " :: [Scenarios.para "p2"])
  = "p1" +:+ String "010" EmptyString +:+ "p2".
Proof.
  destruct (blank_sibling_is_omitted [Scenarios.para "p1"] [Scenarios.para "p2"]
              (Scenarios.para "  ")) as [H _]; [reflexivity | reflexivity |].
  rewrite H. reflexivity.
Defined.

(** ** The cards of the Microsoft search *)
Section MicrosoftCards.
Import PyStr Microsoft Fields.

Lemma find_job_elements_first (find_cards : string -> res (list JobElement))
    (pre post : list string) (sel : string) (els : list JobElement) :
  Forall (finds_no_card find_cards) pre ->
  find_cards sel = Ok els -> els <> [] ->
  find_job_elements find_cards (pre ++ sel :: post) = Some els.
Proof.
  intros Hpre Hsel Hne. induction Hpre as [|s l Hs Hl IH]; simpl.
  - rewrite Hsel. destruct els; [contradiction | reflexivity].
  - unfold finds_no_card in Hs.
    destruct (find_cards s) as [[|e l']|e]; [exact IH | contradiction | exact IH].
Qed.

Lemma find_job_elements_none (find_cards : string -> res (list JobElement))
    (selectors : list string) :
  Forall (finds_no_card find_cards) selectors ->
  find_job_elements find_cards selectors = None.
Proof.
  induction 1 as [|s l Hs Hl IH]; simpl; [reflexivity|].
  unfold finds_no_card in Hs.
  destruct (find_cards s) as [[|e l']|e]; [exact IH | contradiction | exact IH].
Qed.

Lemma try_selectors_first (find : string -> res string)
    (pre post : list string) (sel t : string) (value : option string) :
  Forall (blank_or_missing find) pre ->
  find sel = Ok t -> truthy (strip t) = true ->
  try_selectors find (pre ++ sel :: post) value = Some (strip t).
Proof.
  intros Hpre Hsel Ht. revert value.
  induction Hpre as [|s l Hs Hl IH]; intros value; simpl.
  - now rewrite Hsel, Ht.
  - unfold blank_or_missing in Hs. destruct (find s) as [t'|e]; [|apply IH].
    rewrite Hs. apply IH.
Qed.

Lemma try_selectors_blank (find : string -> res string)
    (selectors : list string) (value : option string) :
  Forall (blank_or_missing find) selectors ->
  opt_truthy value = false ->
  opt_truthy (try_selectors find selectors value) = false.
Proof.
  intros H. revert value. induction H as [|s l Hs Hl IH]; intros value Hv; simpl.
  - exact Hv.
  - unfold blank_or_missing in Hs. destruct (find s) as [t'|e]; [|now apply IH].
    rewrite Hs. now apply IH.
Qed.

End MicrosoftCards.

(** X16. [extract_job_cards] takes its cards from the first card
    selector, in the order of the list, that finds at least one element,
    and returns one record per element, in order, none dropped; when no
    selector finds an element it returns the empty list. *)
Theorem cards_come_from_first_selector
    (find_cards : string -> res (list Microsoft.JobElement))
    (pre post : list string) (sel : string) (els : list Microsoft.JobElement) :
  Microsoft.card_selectors = pre ++ sel :: post ->
  Forall (Fields.finds_no_card find_cards) pre ->
  find_cards sel = Ok els -> els <> [] ->
  Microsoft.extract_job_cards find_cards = map Microsoft.extract_card els
  /\ length (Microsoft.extract_job_cards find_cards) = length els
  /\ forall other,
       Forall (Fields.finds_no_card other) Microsoft.card_selectors ->
       Microsoft.extract_job_cards other = [].
Proof.
  intros Hsel Hpre Hfind Hne.
  assert (Heq : Microsoft.extract_job_cards find_cards
                = map Microsoft.extract_card els).
  { unfold Microsoft.extract_job_cards. rewrite Hsel.
    now rewrite (find_job_elements_first find_cards pre post sel els). }
  split; [exact Heq|]. split; [rewrite Heq; apply length_map|].
  intros other Hnone. unfold Microsoft.extract_job_cards.
  now rewrite (find_job_elements_none other _ Hnone).
Qed.

(** The theorem on a page whose cards only the second selector finds. *)
Lemma cards_come_from_first_selector_witness :
  length (Microsoft.extract_job_cards MoreScenarios.tiles_only) = 2.
Proof.
  destruct (cards_come_from_first_selector MoreScenarios.tiles_only
              ["div.job-card"] ["div.jobs-list > div"; "li.search-result-item"]
              "div[data-ph-at-id='job-tile']"
              [MoreScenarios.card_with_h2_title; Scenarios.bare_card])
    as (_ & Hlen & _).
  - reflexivity.
  - repeat constructor.
  - reflexivity.
  - discriminate.
  - exact Hlen.
Defined.

(** X17. The title of a card is the trimmed text found by the first
    title selector, in the order of the list, whose element has
    non-blank text, selectors that raise or find blank text being
    passed over; when there is none the title is "Unknown Title". *)
Theorem title_comes_from_first_selector (job_element : Microsoft.JobElement)
    (pre post : list string) (sel t : string) :
  Microsoft.title_selectors = pre ++ sel :: post ->
  Forall (Fields.blank_or_missing (Microsoft.find_xpath job_element)) pre ->
  Microsoft.find_xpath job_element sel = Ok t ->
  PyStr.strip t <> EmptyString ->
  Microsoft.title (Microsoft.extract_card job_element) = PyStr.strip t
  /\ forall other,
       Forall (Fields.blank_or_missing (Microsoft.find_xpath other))
              Microsoft.title_selectors ->
       Microsoft.title (Microsoft.extract_card other) = "Unknown Title".
Proof.
  intros Hsel Hpre Hfind Ht. apply truthy_nonempty in Ht. split.
  - unfold Microsoft.extract_card. cbn [Microsoft.title]. rewrite Hsel.
    rewrite (try_selectors_first _ pre post sel t None Hpre Hfind Ht).
    unfold Microsoft.or_sentinel. cbn [PyStr.opt_truthy]. now rewrite Ht.
  - intros other Hnone. unfold Microsoft.extract_card. cbn [Microsoft.title].
    unfold Microsoft.or_sentinel.
    now rewrite (try_selectors_blank _ _ None Hnone eq_refl).
Qed.

(** The theorem on a card with a blank [<h3>] and a title in its
    [<h2>]. *)
Lemma title_comes_from_first_selector_witness :
  Microsoft.title (Microsoft.extract_card MoreScenarios.card_with_h2_title)
  = "Software Engineer II".
Proof.
  destruct (title_comes_from_first_selector MoreScenarios.card_with_h2_title
              [".//h3"]
              [".//a[contains(@data-ph-at-id, 'job-title')]";
               ".//div[contains(@class, 'title')]";
               ".//a[contains(@class, 'job-title')]"]
              ".//h2" " Software Engineer II ") as [H _].
  - reflexivity.
  - repeat constructor.
  - reflexivity.
  - discriminate.
  - exact H.
Defined.

(** ** The job count *)
Section Count.
Import PyStr TotalJobs.
Variable decimal : N -> option N.
Variable accepts : list N -> bool.

Lemma maximum_ge (l : list N) (n : N) : n ∈ l -> (n <= maximum l)%N.
Proof.
  induction l as [|x l IH]; intros Hin; [inversion Hin|].
  simpl. apply elem_of_cons in Hin as [->|Hin]; [lia|].
  specialize (IH Hin). lia.
Qed.

Lemma maximum_in (l : list N) : l <> [] -> maximum l ∈ l.
Proof.
  induction l as [|x l IH]; intros Hne; [contradiction|].
  simpl. destruct l as [|y l].
  - simpl. rewrite N.max_0_r. apply elem_of_cons. now left.
  - assert (Hy : maximum (y :: l) ∈ y :: l) by (apply IH; discriminate).
    destruct (N.max_spec x (maximum (y :: l))) as [[_ ->]|[_ ->]].
    + apply elem_of_cons. now right.
    + apply elem_of_cons. now left.
Qed.

Lemma first_count_first (find_text : string -> res (list N))
    (pre post : list string) (sel : string) (text : list N) :
  Forall (passed_over decimal accepts find_text) pre ->
  find_text sel = Ok text ->
  findall_digits decimal text <> [] ->
  forallb accepts (findall_digits decimal text) = true ->
  first_count decimal accepts find_text (pre ++ sel :: post)
  = Some (maximum (map (value decimal) (findall_digits decimal text))).
Proof.
  intros Hpre Hsel Hne Hacc.
  induction Hpre as [|s l Hs Hl IH]; cbn [app first_count].
  - rewrite Hsel.
    destruct (findall_digits decimal text) as [|m ms]; [contradiction|].
    unfold largest. now rewrite Hacc.
  - unfold passed_over in Hs. destruct (find_text s) as [t|e]; [|exact IH].
    destruct Hs as [Hs|Hs].
    + now rewrite Hs.
    + destruct (findall_digits decimal t) as [|m ms]; [exact IH|].
      unfold largest. now rewrite Hs.
Qed.

Lemma first_count_none (find_text : string -> res (list N))
    (selectors : list string) :
  Forall (passed_over decimal accepts find_text) selectors ->
  first_count decimal accepts find_text selectors = None.
Proof.
  induction 1 as [|s l Hs Hl IH]; cbn [first_count]; [reflexivity|].
  unfold passed_over in Hs. destruct (find_text s) as [t|e]; [|exact IH].
  destruct Hs as [Hs|Hs].
  - now rewrite Hs.
  - destruct (findall_digits decimal t) as [|m ms]; [exact IH|].
    unfold largest. now rewrite Hs.
Qed.

End Count.

(** X18. Whatever characters the interpreter takes for decimal digits
    and whatever runs of digits its [int] converts:
    [extract_total_jobs] returns the largest number written in the text
    of the first count selector, in list order, whose element is found,
    holds a number and has all its numbers converted; the result is one
    of the numbers of that text and none of them is larger.  A selector
    whose wait raises, whose text holds no digit or on which [int]
    raises is passed over; when all are, the function returns the number
    of cards on the page, and 0 when listing them raises. *)
Theorem total_is_largest_number_of_first_text
    (decimal : N -> option N) (accepts : list N -> bool)
    (find_text : string -> res (list N))
    (job_cards : res (list Microsoft.JobElement))
    (pre post : list string) (sel : string) (text : list N) :
  TotalJobs.count_selectors = pre ++ sel :: post ->
  Forall (TotalJobs.passed_over decimal accepts find_text) pre ->
  find_text sel = Ok text ->
  TotalJobs.findall_digits decimal text <> [] ->
  forallb accepts (TotalJobs.findall_digits decimal text) = true ->
  let total := TotalJobs.extract_total_jobs decimal accepts find_text job_cards in
  let numbers := map (TotalJobs.value decimal)
                     (TotalJobs.findall_digits decimal text) in
  total ∈ numbers
  /\ (forall n, n ∈ numbers -> (n <= total)%N)
  /\ forall other,
       Forall (TotalJobs.passed_over decimal accepts other)
              TotalJobs.count_selectors ->
       (forall cards, TotalJobs.extract_total_jobs decimal accepts other (Ok cards)
                      = N.of_nat (length cards))
       /\ (forall e, TotalJobs.extract_total_jobs decimal accepts other (Raise e)
                     = 0%N).
Proof.
  intros Hsel Hpre Hfind Hne Hacc. cbn zeta.
  assert (Htotal : TotalJobs.extract_total_jobs decimal accepts find_text job_cards
                   = TotalJobs.maximum
                       (map (TotalJobs.value decimal)
                            (TotalJobs.findall_digits decimal text))).
  { unfold TotalJobs.extract_total_jobs. rewrite Hsel.
    now rewrite (first_count_first decimal accepts find_text pre post sel text
                   Hpre Hfind Hne Hacc). }
  rewrite Htotal.
  split.
  - apply maximum_in. intros Hnil. apply Hne.
    now destruct (TotalJobs.findall_digits decimal text).
  - split; [apply maximum_ge|].
    intros other Hnone. unfold TotalJobs.extract_total_jobs.
    rewrite (first_count_none decimal accepts other _ Hnone).
    split; [intros [|c cards]; reflexivity | reflexivity].
Qed.

(** The theorem on the header "Showing 1-20 of 245 results", with the
    ASCII digits and a limit of 4300 digits. *)
Lemma total_is_largest_number_witness :
  TotalJobs.extract_total_jobs TotalJobs.ascii_decimal TotalJobs.at_most_4300
    MoreScenarios.results_header (Ok []) = 245%N
  /\ TotalJobs.extract_total_jobs TotalJobs.ascii_decimal TotalJobs.at_most_4300
       MoreScenarios.results_header (Ok [])
     ∈ [1%N; 20%N; 245%N].
Proof.
  split; [reflexivity|].
  destruct (total_is_largest_number_of_first_text
              TotalJobs.ascii_decimal TotalJobs.at_most_4300
              MoreScenarios.results_header (Ok [])
              ["//h2[contains(text(), 'result') or contains(text(), 'job') or contains(text(), 'showing')]"]
              ["//span[contains(@class, 'result') and contains(text(), 'result')]";
               "//div[contains(@class, 'result-count')]"]
              "//div[contains(text(), 'Showing') or contains(text(), 'results')]"
              (TotalJobs.codepoints "Showing 1-20 of 245 results"))
    as (Hin & _).
  - reflexivity.
  - repeat constructor.
  - reflexivity.
  - discriminate.
  - reflexivity.
  - exact Hin.
Defined.

(** ** Navigation, next page and the run *)
Section Run.
Import PyStr Microsoft.

Lemma try_next_arrives (controls : string -> res Control) (arrives : bool)
    (selectors clicked : list string) :
  fst (try_next controls arrives selectors clicked) = true -> arrives = true.
Proof.
  revert clicked. induction selectors as [|s rest IH]; intros clicked; simpl.
  - discriminate.
  - destruct (controls s) as [c|e]; [|apply IH].
    destruct (disabled_check c) as [[|]|e]; [discriminate | | apply IH].
    destruct (scroll_into_view c); [|apply IH].
    destruct (click c); [simpl; auto | apply IH].
Qed.

Lemma try_next_disabled (controls : string -> res Control) (arrives : bool)
    (pre post clicked : list string) (sel : string) (c : Control) :
  Forall (fun s => is_ok (controls s) = false) pre ->
  controls sel = Ok c -> disabled_check c = Ok true ->
  try_next controls arrives (pre ++ sel :: post) clicked = (false, clicked).
Proof.
  intros Hpre Hsel Hd. induction Hpre as [|s l Hs Hl IH]; simpl.
  - now rewrite Hsel, Hd.
  - destruct (controls s); [discriminate | exact IH].
Qed.

(** The loop over the pages calls [extract_job_cards] at most once per
    page it is still allowed. *)
Lemma scrape_pages_extractions (fuel max_pages current_page : nat)
    (p : ResultsPage) (all_jobs : list JobCard) (events : list event) :
  length (List.filter is_extraction
            (snd (scrape_pages fuel max_pages current_page p all_jobs events)))
  <= length (List.filter is_extraction events) + (max_pages - current_page).
Proof.
  revert current_page p all_jobs events.
  induction fuel as [|fuel IH]; intros current_page p all_jobs events; simpl.
  - lia.
  - destruct (current_page <? max_pages) eqn:Hguard; [|simpl; lia].
    apply Nat.ltb_lt in Hguard.
    destruct (fst (go_to_next_page p)).
    + destruct (page_after_click p) as [next|].
      * etransitivity; [apply IH|].
        rewrite List.filter_app, length_app. simpl. lia.
      * simpl. rewrite List.filter_app, length_app. simpl. lia.
    + simpl. rewrite List.filter_app, length_app. simpl. lia.
Qed.

End Run.

(** X19. [navigate_to_search_results] returns [True] exactly when the
    page load, the keyword input, the search button and the wait for a
    card container all succeed; it raises only when the page load
    raises; and the outcome of the location filter changes nothing. *)
Theorem navigation_ignores_the_location_filter (s : Microsoft.SearchSite)
    (other : res unit) :
  (Microsoft.navigate_to_search_results s = Ok true
   <-> is_ok (Microsoft.driver_get s) && is_ok (Microsoft.keyword_input s)
       && is_ok (Microsoft.search_button s) && is_ok (Microsoft.results_wait s)
       = true)
  /\ (forall e, Microsoft.navigate_to_search_results s = Raise e
                <-> Microsoft.driver_get s = Raise e)
  /\ Microsoft.navigate_to_search_results
       {| Microsoft.setup_driver := Microsoft.setup_driver s;
          Microsoft.driver_get := Microsoft.driver_get s;
          Microsoft.keyword_input := Microsoft.keyword_input s;
          Microsoft.location_filter := other;
          Microsoft.search_button := Microsoft.search_button s;
          Microsoft.results_wait := Microsoft.results_wait s;
          Microsoft.results := Microsoft.results s |}
     = Microsoft.navigate_to_search_results s.
Proof.
  unfold Microsoft.navigate_to_search_results; simpl.
  destruct (Microsoft.driver_get s) as [u|e0]; simpl.
  - destruct (Microsoft.keyword_input s); simpl;
      [|repeat split; try discriminate; intros [=]].
    destruct (Microsoft.search_button s); simpl;
      [|repeat split; try discriminate; intros [=]].
    destruct (Microsoft.results_wait s) as [?|[]]; simpl;
      repeat split; try discriminate; auto; intros [=].
  - repeat split; try discriminate; intros [=]; subst; reflexivity.
Qed.

(** The theorem on a search whose location filter times out and whose
    other steps succeed. *)
Lemma navigation_ignores_the_location_filter_witness :
  Microsoft.navigate_to_search_results MoreScenarios.search_with_results
  = Ok true.
Proof.
  destruct (navigation_ignores_the_location_filter
              MoreScenarios.search_with_results (Ok tt)) as [[_ H] _].
  apply H. reflexivity.
Defined.

(** X20. [go_to_next_page] returns [True] only when the cards of the
    new page showed up after a click; and the first control it finds,
    when that control is marked disabled, ends it at once with [False]
    and no click, the selectors after it not being tried. *)
Theorem disabled_control_ends_the_search (p : Microsoft.ResultsPage)
    (pre post : list string) (sel : string) (c : Microsoft.Control) :
  Microsoft.next_selectors = pre ++ sel :: post ->
  Forall (fun s => is_ok (Microsoft.page_controls p s) = false) pre ->
  Microsoft.page_controls p sel = Ok c ->
  Microsoft.disabled_check c = Ok true ->
  Microsoft.go_to_next_page p = (false, [])
  /\ forall q, fst (Microsoft.go_to_next_page q) = true ->
               is_Some (Microsoft.page_after_click q).
Proof.
  intros Hsel Hpre Hc Hd. split.
  - unfold Microsoft.go_to_next_page. rewrite Hsel.
    now apply (try_next_disabled _ _ pre post [] sel c).
  - intros q Hq. apply try_next_arrives in Hq.
    now apply bool_decide_eq_true in Hq.
Qed.

(** The theorem on a page whose first control found carries a
    [disabled] attribute, before a usable one. *)
Lemma disabled_control_witness :
  Microsoft.go_to_next_page
    (Scenarios.results_page Scenarios.anchor_marked_disabled
                            Scenarios.aria_enabled_next)
  = (false, []).
Proof.
  destruct (disabled_control_ends_the_search
              (Scenarios.results_page Scenarios.anchor_marked_disabled
                                      Scenarios.aria_enabled_next)
              ["//button[contains(@aria-label, 'Next page') or contains(@aria-label, 'next page')]"]
              ["//button[contains(text(), 'Next')]";
               "//a[contains(text(), 'Next')]";
               "//li[contains(@class, 'next')]/a";
               "//div[contains(@class, 'pagination')]//li[last()]/a";
               "//button[contains(@class, 'next')]"]
              "//a[contains(@aria-label, 'Next page') or contains(@aria-label, 'next page')]"
              Scenarios.anchor_marked_disabled) as [H _].
  - reflexivity.
  - repeat constructor.
  - reflexivity.
  - reflexivity.
  - exact H.
Defined.

(** X21. [scrape_jobs] returns a list on every path, and it ends by
    quitting the driver whenever one was created; when [setup_driver]
    raises it returns the empty list and touches no driver. *)
Theorem run_always_quits_the_driver (s : Microsoft.SearchSite)
    (max_pages : nat) :
  (exists jobs, fst (Microsoft.scrape_jobs s max_pages) = Ok jobs)
  /\ if is_ok (Microsoft.setup_driver s)
     then last (snd (Microsoft.scrape_jobs s max_pages)) = Some Microsoft.EvQuit
     else Microsoft.scrape_jobs s max_pages = (Ok [], []).
Proof.
  unfold Microsoft.scrape_jobs, Microsoft.scrape_try.
  destruct (Microsoft.setup_driver s) as [u|e]; simpl; [|eauto].
  destruct (Microsoft.navigate_to_search_results s) as [[|]|e]; simpl;
    try (split; [eauto | reflexivity]).
  destruct (Microsoft.scrape_pages max_pages max_pages 1 (Microsoft.results s)
              (Microsoft.extract_job_cards
                 (Microsoft.page_cards (Microsoft.results s)))
              [Microsoft.EvNavigate; Microsoft.EvExtractCards])
    as [all_jobs events].
  simpl. split; [eauto | apply last_snoc].
Qed.

(** X22. [max_pages] is a hard ceiling on the pages scraped, with one
    exception: the first page is scraped even when [max_pages] is 0.
    [extract_job_cards] is called at most [max(1, max_pages)] times, and
    a run with [max_pages = 0] returns what a run with [max_pages = 1]
    returns. *)
Theorem run_scrapes_at_most_max_pages (s : Microsoft.SearchSite)
    (max_pages : nat) :
  length (List.filter Microsoft.is_extraction
            (snd (Microsoft.scrape_jobs s max_pages)))
  <= Nat.max 1 max_pages
  /\ Microsoft.scrape_jobs s 0 = Microsoft.scrape_jobs s 1.
Proof.
  split.
  - unfold Microsoft.scrape_jobs, Microsoft.scrape_try.
    destruct (Microsoft.setup_driver s) as [u|e]; simpl; [|lia].
    destruct (Microsoft.navigate_to_search_results s) as [[|]|e]; simpl;
      try lia.
    pose proof (scrape_pages_extractions max_pages max_pages 1
                  (Microsoft.results s)
                  (Microsoft.extract_job_cards
                     (Microsoft.page_cards (Microsoft.results s)))
                  [Microsoft.EvNavigate; Microsoft.EvExtractCards]) as H.
    destruct (Microsoft.scrape_pages max_pages max_pages 1 (Microsoft.results s)
                (Microsoft.extract_job_cards
                   (Microsoft.page_cards (Microsoft.results s)))
                [Microsoft.EvNavigate; Microsoft.EvExtractCards])
      as [all_jobs events].
    simpl in *. rewrite List.filter_app, length_app. simpl. lia.
  - unfold Microsoft.scrape_jobs, Microsoft.scrape_try.
    destruct (Microsoft.setup_driver s); [|reflexivity].
    destruct (Microsoft.navigate_to_search_results s) as [[|]|e]; reflexivity.
Qed.

(** ** The file name *)
Section FileName.
Import PyStr Main.

Lemma replace_spaces_length (s : string) :
  String.length (replace_spaces s) = String.length s.
Proof. induction s as [|c s IH]; simpl; [reflexivity | now rewrite IH]. Qed.

Lemma replace_spaces_no_space (s : string) :
  contains " " (replace_spaces s) = false.
Proof.
  induction s as [|c s IH]; [reflexivity|].
  cbn [replace_spaces contains]. rewrite IH, orb_false_r.
  destruct (Ascii.eqb c " ") eqn:E.
  - reflexivity.
  - cbn [String.prefix].
    destruct (Ascii.ascii_dec " " c) as [<-|Hne]; [discriminate | reflexivity].
Qed.

End FileName.

(** X23. The keyword part of the CSV file name is never empty and holds
    no space: it is "all" when there is no keyword, and otherwise the
    keyword, of the same length, with each space turned into an
    underscore. *)
Theorem keyword_slug_has_no_space (search_keyword : string) :
  Main.keyword_slug search_keyword <> EmptyString
  /\ PyStr.contains " " (Main.keyword_slug search_keyword) = false
  /\ Main.keyword_slug EmptyString = "all"
  /\ String.length (Main.replace_spaces search_keyword)
     = String.length search_keyword
  /\ Main.keyword_slug "software engineer" = "software_engineer".
Proof.
  split.
  - unfold Main.keyword_slug. destruct search_keyword as [|c r]; simpl;
      discriminate.
  - split.
    + unfold Main.keyword_slug. destruct (PyStr.truthy search_keyword);
        [apply replace_spaces_no_space | reflexivity].
    + split; [reflexivity|]. split; [apply replace_spaces_length | reflexivity].
Qed.

(** ** The records of a Microsoft run *)
Section RunRecords.
Import Microsoft Pages.

Lemma scrape_pages_records (fuel max_pages current_page : nat)
    (p : ResultsPage) (all_jobs : list JobCard) (events : list event) :
  max_pages - current_page <= fuel ->
  fst (scrape_pages fuel max_pages current_page p all_jobs events)
  = all_jobs ++ concat (map cards_of (pages_after (max_pages - current_page) p)).
Proof.
  revert current_page p all_jobs events.
  induction fuel as [|fuel IH]; intros current_page p all_jobs events Hfuel.
  - replace (max_pages - current_page) with 0 by lia. simpl.
    now rewrite app_nil_r.
  - simpl. destruct (current_page <? max_pages) eqn:Hguard.
    + apply Nat.ltb_lt in Hguard.
      replace (max_pages - current_page) with (S (max_pages - S current_page))
        by lia.
      simpl. destruct (fst (go_to_next_page p)).
      * destruct (page_after_click p) as [next|].
        -- rewrite IH by lia. simpl. now rewrite <- app_assoc.
        -- simpl. now rewrite app_nil_r.
      * simpl. now rewrite app_nil_r.
    + apply Nat.ltb_ge in Hguard.
      replace (max_pages - current_page) with 0 by lia. simpl.
      now rewrite app_nil_r.
Qed.

End RunRecords.

(** X24. The Microsoft run suppresses nothing: once the search results
    have loaded, [scrape_jobs] returns the records of the first page
    followed by those of each page reached, one per card, so a card
    that shows on two pages comes twice. *)
Theorem run_returns_every_card_of_every_page (s : Microsoft.SearchSite)
    (max_pages : nat) :
  is_ok (Microsoft.setup_driver s) = true ->
  Microsoft.navigate_to_search_results s = Ok true ->
  fst (Microsoft.scrape_jobs s max_pages)
  = Ok (concat (map Pages.cards_of
                    (Microsoft.results s
                       :: Pages.pages_after (max_pages - 1) (Microsoft.results s)))).
Proof.
  intros Hsetup Hnav. unfold Microsoft.scrape_jobs, Microsoft.scrape_try.
  destruct (Microsoft.setup_driver s); [|discriminate]. rewrite Hnav.
  pose proof (scrape_pages_records max_pages max_pages 1 (Microsoft.results s)
                (Microsoft.extract_job_cards
                   (Microsoft.page_cards (Microsoft.results s)))
                [Microsoft.EvNavigate; Microsoft.EvExtractCards]) as H.
  destruct (Microsoft.scrape_pages max_pages max_pages 1 (Microsoft.results s)
              (Microsoft.extract_job_cards
                 (Microsoft.page_cards (Microsoft.results s)))
              [Microsoft.EvNavigate; Microsoft.EvExtractCards])
    as [all_jobs events].
  simpl in *. rewrite H by lia. reflexivity.
Qed.

(** The theorem on three pages that all show the same card: the run
    returns it three times. *)
Lemma run_returns_every_card_witness :
  fst (Microsoft.scrape_jobs MoreScenarios.search_with_results 5)
  = Ok [Microsoft.extract_card Scenarios.card_without_href;
        Microsoft.extract_card Scenarios.card_without_href;
        Microsoft.extract_card Scenarios.card_without_href].
Proof.
  rewrite (run_returns_every_card_of_every_page
             MoreScenarios.search_with_results 5); reflexivity.
Defined.

(** ** The scroll loop when a browser call raises *)
Section ScrollFailures.
Import Scroll.

Lemma scroll_loop_with_failures_ok (page : nat -> res reading)
    (readings : nat -> reading) (max_scrolls fuel : nat) (st : state) :
  (forall i, i < max_scrolls -> page i = Ok (readings i)) ->
  scroll_loop_with_failures fuel page max_scrolls st
  = Ok (scroll_loop fuel readings max_scrolls st).
Proof.
  intros Hok. revert st. induction fuel as [|fuel IH]; intros st; simpl.
  - reflexivity.
  - destruct (scrolls st <? max_scrolls) eqn:Hguard; [|reflexivity].
    apply Nat.ltb_lt in Hguard. rewrite (Hok _ Hguard).
    destruct (compare_and_count (readings (scrolls st)) st) as [st' stopped].
    destruct stopped; [reflexivity | apply IH].
Qed.

End ScrollFailures.

(** X25. [scroll_to_load_all] has no handler around its page reads: it
    raises when the read of the height before the loop raises, or when
    the first pass raises, and when none of the reads it can make
    raises it runs as the loop over the readings does, with the same
    final variables and the same exit. *)
Theorem scroll_raises_with_its_reads (page : nat -> res Scroll.reading)
    (readings : nat -> Scroll.reading) (h0 : Z) (max_scrolls : nat) :
  (forall i, i < max_scrolls -> page i = Ok (readings i)) ->
  Scroll.scroll_to_load_all_with_failures page (Ok h0) max_scrolls
  = Ok (Scroll.scroll_to_load_all readings h0 max_scrolls)
  /\ (forall e, Scroll.scroll_to_load_all_with_failures page (Raise e) max_scrolls
                = Raise e)
  /\ (forall failing e,
        failing 0 = Raise e ->
        Scroll.scroll_to_load_all_with_failures failing (Ok h0) (S max_scrolls)
        = Raise e).
Proof.
  intros Hok. split.
  - unfold Scroll.scroll_to_load_all_with_failures, Scroll.scroll_to_load_all.
    now apply scroll_loop_with_failures_ok.
  - split; [reflexivity|].
    intros failing e Hfail.
    unfold Scroll.scroll_to_load_all_with_failures. simpl. now rewrite Hfail.
Qed.

(** The theorem on the scenario page read without failure, and on a
    page whose first read fails. *)
Lemma scroll_raises_with_its_reads_witness :
  Scroll.scroll_to_load_all_with_failures
    (fun i => Ok (Scroll.scenario_page i)) (Ok 100%Z) 20
  = Ok (Scroll.scroll_to_load_all Scroll.scenario_page 100 20)
  /\ Scroll.scroll_to_load_all_with_failures
       (fun _ => Raise StaleElementReferenceException) (Ok 100%Z) 20
     = Raise StaleElementReferenceException.
Proof.
  destruct (scroll_raises_with_its_reads
              (fun i => Ok (Scroll.scenario_page i)) Scroll.scenario_page 100 19)
    as (_ & _ & Hfail).
  { intros i Hi. reflexivity. }
  destruct (scroll_raises_with_its_reads
              (fun i => Ok (Scroll.scenario_page i)) Scroll.scenario_page 100 20)
    as (Hok & _).
  { intros i Hi. reflexivity. }
  split; [exact Hok|].
  exact (Hfail (fun _ => Raise StaleElementReferenceException) _ eq_refl).
Defined.
